(** * Slackython: a shallow embedding of [slackython.py]

    The library keeps its templates and its supervisor list in mutable
    Python objects ([dict] and [list]) reached through the attributes of
    a [Slackython] instance, and builds each payload by mutating deep
    copies of the templates.  The embedding therefore works over an
    explicit object store: objects live in cells, values are [None],
    strings or references to cells, and every method is a computation
    in a state-and-exception monad over the store, the list of HTTP
    requests performed so far and the records handed to the logger. *)

From stdpp Require Import base option list strings numbers pretty.

Open Scope Z_scope.
Open Scope string_scope.
Open Scope list_scope.

(** ** Python values and objects *)

Abbreviation loc := nat.

Inductive value :=
  | VNone
  | VStr (s : string)
  | VRef (l : loc).

(** A [dict] keeps its keys in insertion order; an instance is
    represented by its attribute dictionary. *)
Inductive obj :=
  | OList (items : list value)
  | ODict (entries : list (string * value))
  | OInst (attrs : list (string * value)).

Abbreviation heap := (list obj).

Fixpoint dict_get (k : string) (d : list (string * value)) : option value :=
  match d with
  | [] => None
  | (k', v) :: d' => if String.eqb k k' then Some v else dict_get k d'
  end.

(** [d[k] = v]: an existing key keeps its position, a new key goes last. *)
Fixpoint dict_set (k : string) (v : value) (d : list (string * value))
  : list (string * value) :=
  match d with
  | [] => [(k, v)]
  | (k', v') :: d' =>
      if String.eqb k k' then (k', v) :: d' else (k', v') :: dict_set k v d'
  end.

(** The document [json.dumps] writes. *)
#[local] Set Warnings "-register-all".
Inductive json :=
  | JNull
  | JStr (s : string)
  | JArr (elems : list json)
  | JObj (members : list (string * json)).

(** ** Exceptions, requests, log records *)

(** [Timeout] and [TooManyRedirects] are subclasses of
    [RequestException] in [requests.exceptions]; [RequestException]
    stands for every other member of that family.  The remaining
    constructors are built-in exceptions that the store operations and
    [json.dumps] raise, and [OtherError] is any exception outside the
    [requests] family that the HTTP call may raise. *)
Inductive exn :=
  | Timeout
  | TooManyRedirects
  | RequestException
  | AttributeError
  | KeyError
  | TypeError
  | ValueError
  | OtherError.

Inductive NotificationLevel := NORMAL | INFORMATION | CRITICAL.

Definition level_value (level : NotificationLevel) : string :=
  match level with
  | NORMAL => "#00C853"
  | INFORMATION => "#FFD600"
  | CRITICAL => "#d50000"
  end.

Record request := Request {
  req_url : value;
  req_data : json;
  req_headers : list (string * string)
}.

Inductive log_record :=
  | LogInfo (msg : string)
  | LogError (msg : string)
  | LogErrorExn (e : exn).

(** What one call of [requests.post] does: it answers with a status
    code or raises. *)
Inductive post_result :=
  | Responds (status_code : Z)
  | Fails (e : exn).

(** The world a method runs in.  [w_net] is the remote side: given all
    requests performed so far, the last one being the current one, it
    decides the outcome of the current one. *)
Record world := World {
  w_heap : list obj;
  w_sent : list request;
  w_log : list log_record;
  w_net : list request -> post_result
}.

Definition set_heap (h : list obj) (w : world) : world :=
  World h (w_sent w) (w_log w) (w_net w).

(** ** The monad *)

(** [Stuck] is not a Python outcome: it marks what the model leaves
    out (a reference to no cell, the [repr] of a container). *)
Inductive res (A : Type) :=
  | Ok (a : A)
  | Raise (e : exn)
  | Stuck.
Arguments Ok {A} a.
Arguments Raise {A} e.
Arguments Stuck {A}.

Definition res_bind {A B} (r : res A) (k : A -> res B) : res B :=
  match r with
  | Ok a => k a
  | Raise e => Raise e
  | Stuck => Stuck
  end.

Fixpoint res_mapM {A B} (f : A -> res B) (l : list A) : res (list B) :=
  match l with
  | [] => Ok []
  | x :: l' =>
      res_bind (f x) (fun y =>
      res_bind (res_mapM f l') (fun ys => Ok (y :: ys)))
  end.

Definition M (A : Type) : Type := world -> res A * world.

Definition ret {A} (a : A) : M A := fun w => (Ok a, w).

Definition bind {A B} (m : M A) (k : A -> M B) : M B :=
  fun w =>
    match m w with
    | (Ok a, w') => k a w'
    | (Raise e, w') => (Raise e, w')
    | (Stuck, w') => (Stuck, w')
    end.

Definition raise {A} (e : exn) : M A := fun w => (Raise e, w).
Definition stuck {A} : M A := fun w => (Stuck, w).

(** [try: body except ...: handler]: [handler e] is [None] when no
    [except] clause matches [e], and the exception goes on. *)
Definition try_except {A} (body : M A) (handler : exn -> option (M A)) : M A :=
  fun w =>
    match body w with
    | (Raise e, w') =>
        match handler e with
        | Some h => h w'
        | None => (Raise e, w')
        end
    | r => r
    end.

Declare Scope py_scope.
Delimit Scope py_scope with py.
Notation "'let*' x ':=' m 'in' k" := (bind m (fun x => k))
  (at level 10, x name, m at level 100, k at level 200) : py_scope.
Notation "m ';;' k" := (bind m (fun _ => k))
  (at level 100, k at level 200, right associativity) : py_scope.
Open Scope py_scope.

(** ** Store operations *)

Definition load (l : loc) : M obj :=
  fun w =>
    match w_heap w !! l with
    | Some o => (Ok o, w)
    | None => (Stuck, w)
    end.

Definition store (l : loc) (o : obj) : M unit :=
  fun w => (Ok tt, set_heap (<[l := o]> (w_heap w)) w).

Definition alloc (o : obj) : M value :=
  fun w => (Ok (VRef (length (w_heap w))), set_heap (w_heap w ++ [o]) w).

(** [x.name] *)
Definition getattr (x : value) (name : string) : M value :=
  match x with
  | VRef l =>
      let* o := load l in
      match o with
      | OInst attrs =>
          match dict_get name attrs with
          | Some v => ret v
          | None => raise AttributeError
          end
      | _ => raise AttributeError
      end
  | _ => raise AttributeError
  end.

(** [x.name = v] *)
Definition setattr (x : value) (name : string) (v : value) : M unit :=
  match x with
  | VRef l =>
      let* o := load l in
      match o with
      | OInst attrs => store l (OInst (dict_set name v attrs))
      | _ => raise AttributeError
      end
  | _ => raise AttributeError
  end.

(** [c[k]] for a string [k] *)
Definition getitem (c : value) (k : string) : M value :=
  match c with
  | VRef l =>
      let* o := load l in
      match o with
      | ODict d =>
          match dict_get k d with
          | Some v => ret v
          | None => raise KeyError
          end
      | _ => raise TypeError
      end
  | _ => raise TypeError
  end.

(** [c[k] = v] for a string [k] *)
Definition setitem (c : value) (k : string) (v : value) : M unit :=
  match c with
  | VRef l =>
      let* o := load l in
      match o with
      | ODict d => store l (ODict (dict_set k v d))
      | _ => raise TypeError
      end
  | _ => raise TypeError
  end.

(** [c.append(x)] *)
Definition list_append (c : value) (x : value) : M unit :=
  match c with
  | VRef l =>
      let* o := load l in
      match o with
      | OList items => store l (OList (items ++ [x]))
      | _ => raise AttributeError
      end
  | _ => raise AttributeError
  end.

(** The characters of a string, each a string of length one. *)
Fixpoint chars (s : string) : list value :=
  match s with
  | EmptyString => []
  | String c s' => VStr (String c EmptyString) :: chars s'
  end.

(** [for x in c]: the items of a list, the keys of a dict, the
    characters of a string.  The loop of this library that uses it
    writes only to cells it has allocated itself, so the items are read
    once, when the loop starts. *)
Definition iter (c : value) : M (list value) :=
  match c with
  | VRef l =>
      let* o := load l in
      match o with
      | OList items => ret items
      | ODict d => ret (map (fun kv => VStr kv.1) d)
      | OInst _ => raise TypeError
      end
  | VStr s => ret (chars s)
  | VNone => raise TypeError
  end.

(** [str(x)], as [format] uses it for a [{}] field. *)
Definition str (x : value) : M string :=
  match x with
  | VNone => ret "None"
  | VStr s => ret s
  | VRef _ => stuck
  end.

(** *** [copy.deepcopy] *)

(** The store and the memo of one [deepcopy] call; the memo maps a
    cell to its copy. *)
Definition copy_state : Type := list obj * list (loc * loc).

Fixpoint memo_get (l : loc) (memo : list (loc * loc)) : option loc :=
  match memo with
  | [] => None
  | (k, y) :: memo' => if Nat.eqb l k then Some y else memo_get l memo'
  end.

(** [for a in x: y.append(deepcopy(a, memo))] *)
Fixpoint copy_items (rec : value -> copy_state -> option (value * copy_state))
    (y : loc) (items : list value) (st : copy_state) : option copy_state :=
  match items with
  | [] => Some st
  | a :: items' =>
      match rec a st with
      | Some (a', (h, memo)) =>
          match h !! y with
          | Some (OList ys) =>
              copy_items rec y items' (<[y := OList (ys ++ [a'])]> h, memo)
          | _ => None
          end
      | None => None
      end
  end.

Definition obj_set (k : string) (v : value) (o : obj) : option obj :=
  match o with
  | ODict d => Some (ODict (dict_set k v d))
  | OInst d => Some (OInst (dict_set k v d))
  | OList _ => None
  end.

(** [for key, value in x.items(): y[key] = deepcopy(value, memo)] *)
Fixpoint copy_entries (rec : value -> copy_state -> option (value * copy_state))
    (y : loc) (entries : list (string * value)) (st : copy_state)
  : option copy_state :=
  match entries with
  | [] => Some st
  | (k, a) :: entries' =>
      match rec a st with
      | Some (a', (h, memo)) =>
          match h !! y ≫= obj_set k a' with
          | Some o => copy_entries rec y entries' (<[y := o]> h, memo)
          | None => None
          end
      | None => None
      end
  end.

(** The copy of a container is allocated and entered in the memo
    before its items are copied.  [None]: out of fuel, or a reference
    to no cell. *)
Fixpoint deepcopy_go (fuel : nat) (x : value) (st : copy_state)
  : option (value * copy_state) :=
  match fuel with
  | O => None
  | S fuel' =>
      match x with
      | VRef l =>
          let '(h, memo) := st in
          match memo_get l memo with
          | Some y => Some (VRef y, st)
          | None =>
              let y := length h in
              match h !! l with
              | Some (OList items) =>
                  st' ← copy_items (deepcopy_go fuel') y items
                         (h ++ [OList []], (l, y) :: memo);
                  Some (VRef y, st')
              | Some (ODict d) =>
                  st' ← copy_entries (deepcopy_go fuel') y d
                         (h ++ [ODict []], (l, y) :: memo);
                  Some (VRef y, st')
              | Some (OInst d) =>
                  st' ← copy_entries (deepcopy_go fuel') y d
                         (h ++ [OInst []], (l, y) :: memo);
                  Some (VRef y, st')
              | None => None
              end
          end
      | _ => Some (x, st)
      end
  end.

(** Each level of the copy enters one more cell of the store in the
    memo, so one unit of fuel per cell, and one for the leaves. *)
Definition deepcopy (x : value) : M value :=
  fun w =>
    match deepcopy_go (S (length (w_heap w))) x (w_heap w, []) with
    | Some (y, (h', _)) => (Ok y, set_heap h' w)
    | None => (Stuck, w)
    end.

(** *** [json.dumps] *)

(** An instance is not serialisable ([TypeError]); running out of fuel
    means a circular reference ([ValueError]). *)
Fixpoint reify (fuel : nat) (h : list obj) (x : value) : res json :=
  match fuel with
  | O => Raise ValueError
  | S fuel' =>
      match x with
      | VNone => Ok JNull
      | VStr s => Ok (JStr s)
      | VRef l =>
          match h !! l with
          | Some (OList items) =>
              res_bind (res_mapM (reify fuel' h) items) (fun js => Ok (JArr js))
          | Some (ODict d) =>
              res_bind
                (res_mapM
                   (fun kv => res_bind (reify fuel' h kv.2)
                                (fun j => Ok (kv.1, j))) d)
                (fun ms => Ok (JObj ms))
          | Some (OInst _) => Raise TypeError
          | None => Stuck
          end
      end
  end.

Definition json_dumps (x : value) : M json :=
  fun w => (reify (S (length (w_heap w))) (w_heap w) x, w).

(** *** [logging] and [requests] *)

Definition log (r : log_record) : M unit :=
  fun w => (Ok tt, World (w_heap w) (w_sent w) (w_log w ++ [r]) (w_net w)).

Definition logger_info (msg : string) : M unit := log (LogInfo msg).
Definition logger_error (msg : string) : M unit := log (LogError msg).
Definition logger_error_exn (e : exn) : M unit := log (LogErrorExn e).

(** [requests.post(url, data=data, headers=headers)]: the call is
    recorded, and the remote side decides its outcome. *)
Definition requests_post (url : value) (data : json)
    (headers : list (string * string)) : M Z :=
  fun w =>
    let sent := w_sent w ++ [Request url data headers] in
    let w' := World (w_heap w) sent (w_log w) (w_net w) in
    match w_net w sent with
    | Responds status_code => (Ok status_code, w')
    | Fails e => (Raise e, w')
    end.

(** ** The class [Slackython] *)

(** [Slackython.__init__(self, webhook, slack_supervisors=None)].  An
    omitted argument is [VNone]. *)
Definition __init__ (self webhook slack_supervisors : value) : M value :=
  setattr self "webhook_url" webhook ;;
  (let* l := alloc (OList []) in
   setattr self "slack_supervisors" l) ;;
  match slack_supervisors with
  | VNone => ret tt
  | _ => setattr self "slack_supervisors" slack_supervisors
  end ;;
  (let* a := alloc (OList []) in
   let* d := alloc (ODict [("attachments", a)]) in
   setattr self "base_template" d) ;;
  (let* d := alloc (ODict [("text", VStr ""); ("color", VStr "")]) in
   setattr self "attachment_template" d) ;;
  ret VNone.

(** [Slackython(webhook, slack_supervisors)]: a new instance, then
    [__init__]. *)
Definition Slackython (webhook slack_supervisors : value) : M value :=
  let* self := alloc (OInst []) in
  __init__ self webhook slack_supervisors ;;
  ret self.

Definition nl : string :=
  Eval cbv in String (Ascii.ascii_of_nat 10) EmptyString.

(** One turn of the loop of [_send_to_webhook]; [true] is [break]. *)
Definition attempt (self data : value) : M bool :=
  try_except
    (let* url := getattr self "webhook_url" in
     let* body := json_dumps data in
     let* status_code :=
       requests_post url body [("Content-Type", "application/json")] in
     if (status_code =? 200)%Z then
       logger_info "Success response" ;;
       ret true
     else
       logger_info ("Response status " +:+ pretty status_code +:+ "."
                    +:+ nl +:+ "Retrying") ;;
       ret false)
    (fun e =>
       match e with
       | Timeout =>
           Some (logger_error "Request timeout." ;; ret false)
       | TooManyRedirects =>
           Some (logger_error "Request too many redirects." ;; ret false)
       | RequestException =>
           Some (logger_error "Requests connection error." ;;
                 logger_error_exn e ;;
                 ret false)
       | _ => None
       end).

(** [for retry in range(n): ...] *)
Fixpoint attempts (self data : value) (n : nat) : M unit :=
  match n with
  | O => ret tt
  | S n' =>
      let* stop := attempt self data in
      if stop then ret tt else attempts self data n'
  end.

(** [Slackython._send_to_webhook(self, data, retries=3)]; [retries] is
    [None] when the argument is omitted. *)
Definition _send_to_webhook (self data : value) (retries : option Z) : M value :=
  attempts self data (Z.to_nat (default 3 retries)) ;;
  ret VNone.

(** The body of [for member in tagged_members] in
    [_generate_message_slack]. *)
Definition tag_member (self data : value) (level : NotificationLevel)
    (member : value) : M unit :=
  let* template := getattr self "attachment_template" in
  let* tagged_event := deepcopy template in
  let* s := str member in
  setitem tagged_event "text" (VStr ("<@" +:+ s +:+ ">")) ;;
  setitem tagged_event "color" (VStr (level_value level)) ;;
  let* attachments := getitem data "attachments" in
  list_append attachments tagged_event.

Fixpoint for_each {A} (body : A -> M unit) (l : list A) : M unit :=
  match l with
  | [] => ret tt
  | x :: l' => body x ;; for_each body l'
  end.

(** [Slackython._generate_message_slack(self, message, level,
    title=None, tagged_members=None)] *)
Definition _generate_message_slack (self message : value)
    (level : NotificationLevel) (title tagged_members : value) : M value :=
  let* template := getattr self "base_template" in
  let* data := deepcopy template in
  match title with
  | VNone => ret tt
  | _ => setitem data "text" title
  end ;;
  let* template := getattr self "attachment_template" in
  let* event := deepcopy template in
  setitem event "text" message ;;
  setitem event "color" (VStr (level_value level)) ;;
  (let* attachments := getitem data "attachments" in
   list_append attachments event) ;;
  match tagged_members with
  | VNone => ret tt
  | _ =>
      let* members := iter tagged_members in
      for_each (tag_member self data level) members
  end ;;
  ret data.

(** [Slackython.send_message(self, message, title=None,
    tagged_members=None)] *)
Definition send_message (self message title tagged_members : value) : M value :=
  let* data :=
    _generate_message_slack self message NORMAL title tagged_members in
  (let* s := str message in logger_info ("Sending message " +:+ s)) ;;
  _send_to_webhook self data None ;;
  ret VNone.

(** [Slackython.send_information(self, message, title=None,
    tagged_members=None)] *)
Definition send_information (self message title tagged_members : value)
  : M value :=
  let* data :=
    _generate_message_slack self message INFORMATION title tagged_members in
  (let* s := str message in logger_info ("Sending information " +:+ s)) ;;
  _send_to_webhook self data None ;;
  ret VNone.

(** [Slackython.send_error(self, message, title=None,
    tagged_members=None)] *)
Definition send_error (self message title tagged_members : value) : M value :=
  let* tagged_members_list :=
    match tagged_members with
    | VNone => getattr self "slack_supervisors"
    | _ => ret tagged_members
    end in
  let* data :=
    _generate_message_slack self message CRITICAL title tagged_members_list in
  (let* s := str message in logger_info ("Sending error " +:+ s)) ;;
  _send_to_webhook self data None ;;
  ret VNone.

(** * Specification-side definitions *)

(** The mention token of a recipient. *)
Definition mention (id : string) : string := "<@" +:+ id +:+ ">".

(** A block as the store holds it and as [json.dumps] writes it. *)
Definition block (text : value) (color : string) : list (string * value) :=
  [("text", text); ("color", VStr color)].

Definition block_json (text color : string) : json :=
  JObj [("text", JStr text); ("color", JStr color)].

Definition blank : list (string * value) := block (VStr "") "".

Definition title_entry (title : value) : list (string * value) :=
  match title with
  | VNone => []
  | _ => [("text", title)]
  end.

(** The blocks of a payload: the message, then one mention per
    recipient, all in the colour of the level. *)
Definition blocks (message : value) (level : NotificationLevel)
    (ids : list string) : list (list (string * value)) :=
  block message (level_value level)
  :: map (fun id => block (VStr (mention id)) (level_value level)) ids.

(** The cells a payload occupies when it is built in a store of [n]
    cells: the payload, its list of attachments, the blocks. *)
Definition payload_cells (n : nat) (title : value)
    (evs : list (list (string * value))) : list obj :=
  ODict (("attachments", VRef (S n)) :: title_entry title)
  :: OList (map VRef (seq (S (S n)) (length evs)))
  :: map ODict evs.

Definition blocks_json (message : string) (level : NotificationLevel)
    (ids : list string) : list json :=
  block_json message (level_value level)
  :: map (fun id => block_json (mention id) (level_value level)) ids.

Definition opt_str (o : option string) : value :=
  match o with
  | Some s => VStr s
  | None => VNone
  end.

Definition payload_json (message : string) (level : NotificationLevel)
    (title : option string) (ids : list string) : json :=
  JObj (("attachments", JArr (blocks_json message level ids))
        :: match title with
           | Some t => [("text", JStr t)]
           | None => []
           end).

(** [v] is a list of the strings [ids]. *)
Definition is_list (h : list obj) (v : value) (ids : list string) : Prop :=
  exists l, v = VRef l /\ h !! l = Some (OList (map VStr ids)).

(** [v] is an optional recipient list: [None], or a list of strings. *)
Definition recipients (h : list obj) (v : value) (ids : list string) : Prop :=
  (v = VNone /\ ids = []) \/ is_list h v ids.

(** The cell [self] is a [Slackython] instance as [__init__] leaves it:
    its webhook is [url], its supervisor list is [sup], its templates
    are the two literals of [__init__]. *)
Inductive is_notifier (h : list obj) (self : loc) (url sup : value) : Prop :=
  | IsNotifier attrs bt a0 tpl
      (Hself : h !! self = Some (OInst attrs))
      (Hurl : dict_get "webhook_url" attrs = Some url)
      (Hsup : dict_get "slack_supervisors" attrs = Some sup)
      (Hbase : dict_get "base_template" attrs = Some (VRef bt))
      (Htpl : dict_get "attachment_template" attrs = Some (VRef tpl))
      (Hbt : h !! bt = Some (ODict [("attachments", VRef a0)]))
      (Ha0 : h !! a0 = Some (OList []))
      (Hblank : h !! tpl = Some (ODict blank)).

(** The payload a call builds: what [json.dumps] makes of its result. *)
Definition built_payload (call : M value) (w : world) : res json :=
  ((let* data := call in json_dumps data) w).1.

(** The outcome of the [i]-th next call of [requests.post] when every
    call carries the request [r]. *)
Definition outcome (w : world) (r : request) (i : nat) : post_result :=
  w_net w (w_sent w ++ repeat r (S i)).

(** The outcomes after which the loop of [_send_to_webhook] goes on. *)
Definition retried (o : post_result) : Prop :=
  match o with
  | Responds status_code => status_code <> 200
  | Fails Timeout | Fails TooManyRedirects | Fails RequestException => True
  | Fails _ => False
  end.

Definition json_headers : list (string * string) :=
  [("Content-Type", "application/json")].

Definition texts (message : string) (ids : list string) : list string :=
  message :: map mention ids.

(** What one turn of the loop makes of the outcome of its request:
    stop, go on, or let the exception through. *)
Definition verdict (o : post_result) : res bool :=
  match o with
  | Responds status_code => Ok (status_code =? 200)%Z
  | Fails Timeout | Fails TooManyRedirects | Fails RequestException => Ok false
  | Fails e => Raise e
  end.

(** [m] performs at most [k] requests and writes nothing to the
    store. *)
Definition sends_at_most {A} (k : nat) (m : M A) : Prop :=
  forall w, exists reqs,
    (length reqs <= k)%nat /\
    w_sent (m w).2 = w_sent w ++ reqs /\
    w_heap (m w).2 = w_heap w /\
    w_net (m w).2 = w_net w.

(** The supervisor list a new instance stores. *)
Definition stored_supervisors (n : nat) (slack_supervisors : value) : value :=
  match slack_supervisors with
  | VNone => VRef (n + 1)
  | _ => slack_supervisors
  end.

Definition notifier_cells (n : nat) (webhook slack_supervisors : value)
  : list obj :=
  [OInst [("webhook_url", webhook);
          ("slack_supervisors", stored_supervisors n slack_supervisors);
          ("base_template", VRef (n + 3));
          ("attachment_template", VRef (n + 4))];
   OList [];
   OList [];
   ODict [("attachments", VRef (n + 2))];
   ODict blank].

(** [call] posts [payload] to [url] between one and three times, and
    does nothing else to the world than to add cells and log. *)
Definition delivers (call : M value) (w : world) (url : value)
    (payload : json) : Prop :=
  exists r k lg' t,
    (1 <= k <= 3)%nat /\
    call w = (r, World (w_heap w ++ t)
                       (w_sent w ++ repeat (Request url payload json_headers) k)
                       lg' (w_net w)).

Fixpoint assoc_json (k : string) (ms : list (string * json)) : option json :=
  match ms with
  | [] => None
  | (k', j) :: ms' => if String.eqb k k' then Some j else assoc_json k ms'
  end.

(** [j[k]] on a JSON object. *)
Definition field (k : string) (j : json) : option json :=
  match j with
  | JObj ms => assoc_json k ms
  | _ => None
  end.

(** A world with one notifier, built by the constructor from the
    supervisor list [["U1", "U2"]]: the list is cell 0, the notifier
    cell 1.  The remote side answers the [k]-th request with
    [answers !! k], and with 500 when the list is used up. *)
Definition example_setup : M value :=
  let* sup := alloc (OList [VStr "U1"; VStr "U2"]) in
  Slackython (VStr "https://example.test/hook") sup.

Definition example_net (answers : list post_result)
    (sent : list request) : post_result :=
  default (Responds 500) (answers !! pred (length sent)).

Definition example_world (answers : list post_result) : world :=
  (example_setup (World [] [] [] (example_net answers))).2.

Definition example_url : value := VStr "https://example.test/hook".

(** Every block of [payload] has the colour of [level]. *)
Definition one_color (level : NotificationLevel) (payload : json) : Prop :=
  exists bs,
    field "attachments" payload = Some (JArr bs) /\
    forall b, b ∈ bs -> field "color" b = Some (JStr (level_value level)).

(** [call] leaves every cell of the store as it was, so [self] is the
    same notifier afterwards. *)
Definition keeps_notifier (call : M value) (w : world) (self : loc)
    (url sup : value) : Prop :=
  (forall l o, w_heap w !! l = Some o -> w_heap (call w).2 !! l = Some o) /\
  is_notifier (w_heap (call w).2) self url sup.

(** ** Definitions for the further properties *)

(** The three send operations, by the level they send at. *)
Definition send_at (level : NotificationLevel)
  : value -> value -> value -> value -> M value :=
  match level with
  | NORMAL => send_message
  | INFORMATION => send_information
  | CRITICAL => send_error
  end.

(** The recipient list a send operation hands to the builder: only
    [send_error] falls back on the stored supervisors. *)
Definition effective (level : NotificationLevel) (sup tagged : value) : value :=
  match level, tagged with
  | CRITICAL, VNone => sup
  | _, _ => tagged
  end.

(** What a send operation writes to the log before it delivers. *)
Definition sending (level : NotificationLevel) (message : string) : string :=
  match level with
  | NORMAL => "Sending message " +:+ message
  | INFORMATION => "Sending information " +:+ message
  | CRITICAL => "Sending error " +:+ message
  end.

(** The exceptions the [except] clauses of [_send_to_webhook] catch. *)
Definition caught (e : exn) : bool :=
  match e with
  | Timeout | TooManyRedirects | RequestException => true
  | _ => false
  end.

(** The log records one turn of the loop writes for the outcome of its
    request. *)
Definition records (o : post_result) : list log_record :=
  match o with
  | Responds status_code =>
      if (status_code =? 200)%Z then [LogInfo "Success response"]
      else [LogInfo ("Response status " +:+ pretty status_code +:+ "."
                     +:+ nl +:+ "Retrying")]
  | Fails Timeout => [LogError "Request timeout."]
  | Fails TooManyRedirects => [LogError "Request too many redirects."]
  | Fails RequestException =>
      [LogError "Requests connection error."; LogErrorExn RequestException]
  | Fails _ => []
  end.

(** The records of the first [k] requests, in order. *)
Definition trace (w : world) (r : request) (k : nat) : list log_record :=
  concat (map (fun i => records (outcome w r i)) (seq 0 k)).


(** The world a send operation leaves behind when the transport has
    made [k] requests: the cells of the payload, [k] copies of the
    request, the line of the operation and the records of the [k]
    outcomes. *)
Definition after_send (w : world) (url : value) (level : NotificationLevel)
    (message : string) (title : option string) (ids : list string) (k : nat)
  : world :=
  let req := Request url (payload_json message level title ids) json_headers in
  World (w_heap w ++ payload_cells (length (w_heap w)) (opt_str title)
                       (blocks (VStr message) level ids))
        (w_sent w ++ repeat req k)
        (w_log w ++ LogInfo (sending level message) :: trace w req k)
        (w_net w).

(** * Properties *)

(** The hypotheses of the claims at the example world hold by
    computation. *)
Ltac example_notifier :=
  by eapply (IsNotifier _ _ _ _ _ 4%nat 3%nat 5%nat).
Ltac example_list := by exists 0%nat.

(** ** Cells at the end of a store *)

Lemma lookup_at_length (g : list obj) x t :
  (g ++ x :: t) !! length g = Some x.
Proof. by apply list_lookup_middle. Qed.

Lemma insert_at_length (g : list obj) x y t :
  <[length g := y]> (g ++ x :: t) = g ++ y :: t.
Proof.
  rewrite insert_app_r_alt by lia. by rewrite Nat.sub_diag.
Qed.

Lemma lookup_after_length (g : list obj) x y t :
  (g ++ x :: y :: t) !! S (length g) = Some y.
Proof.
  replace (g ++ x :: y :: t) with ((g ++ [x]) ++ y :: t)
    by (by rewrite <- app_assoc).
  apply list_lookup_middle. rewrite length_app; simpl; lia.
Qed.

Lemma insert_after_length (g : list obj) x y z t :
  <[S (length g) := z]> (g ++ x :: y :: t) = g ++ x :: z :: t.
Proof.
  rewrite insert_app_r_alt by lia.
  by replace (S (length g) - length g)%nat with 1%nat by lia.
Qed.

Lemma lookup_map {A B} (f : A -> B) (l : list A) i :
  map f l !! i = f <$> l !! i.
Proof.
  revert i. induction l as [|x l IH]; intros [|i]; simpl; auto.
Qed.

Lemma lookup_old (g t : list obj) l o :
  g !! l = Some o -> (g ++ t) !! l = Some o.
Proof. intros H. by apply lookup_app_l_Some. Qed.

Lemma bind_ok {A B} (m : M A) (k : A -> M B) w a w' :
  m w = (Ok a, w') -> bind m k w = k a w'.
Proof. intros H. unfold bind. by rewrite H. Qed.

Lemma ret_ok {A} (a : A) w : ret a w = (Ok a, w).
Proof. done. Qed.

Lemma bind_assoc {A B C} (m : M A) (f : A -> M B) (g : B -> M C) w :
  bind (bind m f) g w = bind m (fun x => bind (f x) g) w.
Proof. unfold bind. by destruct (m w) as [[]]. Qed.

Section primitives.
Context (h : list obj) (s : list request) (lg : list log_record)
        (net : list request -> post_result).

Lemma getattr_ok l attrs name v :
  h !! l = Some (OInst attrs) -> dict_get name attrs = Some v ->
  getattr (VRef l) name (World h s lg net) = (Ok v, World h s lg net).
Proof.
  intros Hl Hv. unfold getattr, bind, load; simpl. by rewrite Hl, Hv.
Qed.

Lemma getitem_ok l d k v :
  h !! l = Some (ODict d) -> dict_get k d = Some v ->
  getitem (VRef l) k (World h s lg net) = (Ok v, World h s lg net).
Proof.
  intros Hl Hv. unfold getitem, bind, load; simpl. by rewrite Hl, Hv.
Qed.

Lemma setitem_ok l d k v :
  h !! l = Some (ODict d) ->
  setitem (VRef l) k v (World h s lg net)
  = (Ok tt, World (<[l := ODict (dict_set k v d)]> h) s lg net).
Proof.
  intros Hl. unfold setitem, bind, load; simpl. by rewrite Hl.
Qed.

Lemma list_append_ok l items x :
  h !! l = Some (OList items) ->
  list_append (VRef l) x (World h s lg net)
  = (Ok tt, World (<[l := OList (items ++ [x])]> h) s lg net).
Proof.
  intros Hl. unfold list_append, bind, load; simpl. by rewrite Hl.
Qed.

(** Copying the attachment template allocates one cell. *)
Lemma deepcopy_blank tpl :
  h !! tpl = Some (ODict blank) ->
  deepcopy (VRef tpl) (World h s lg net)
  = (Ok (VRef (length h)), World (h ++ [ODict blank]) s lg net).
Proof.
  intros Hl. unfold deepcopy; simpl.
  destruct (length h) as [|k] eqn:Hk.
  { apply lookup_lt_Some in Hl. lia. }
  rewrite Hl. simpl. rewrite <- Hk.
  rewrite lookup_at_length; simpl.
  rewrite insert_at_length, lookup_at_length; simpl.
  by rewrite insert_at_length.
Qed.

(** Copying the base template allocates two cells: the payload, then
    its list of attachments. *)
Lemma deepcopy_base bt a0 :
  h !! bt = Some (ODict [("attachments", VRef a0)]) ->
  h !! a0 = Some (OList []) ->
  deepcopy (VRef bt) (World h s lg net)
  = (Ok (VRef (length h)),
     World (h ++ [ODict [("attachments", VRef (S (length h)))]; OList []])
           s lg net).
Proof.
  intros Hbt Ha0. unfold deepcopy; simpl.
  destruct (length h) as [|k] eqn:Hk.
  { apply lookup_lt_Some in Hbt. lia. }
  rewrite Hbt. simpl.
  assert (a0 <> bt) as Hne by (intros ->; congruence).
  apply Nat.eqb_neq in Hne. rewrite Hne.
  rewrite (lookup_old _ _ _ _ Ha0). simpl. rewrite <- Hk.
  rewrite length_app; simpl. rewrite Nat.add_1_r.
  rewrite <- (app_assoc h [ODict []] [OList []]); simpl.
  rewrite lookup_at_length; simpl.
  by rewrite insert_at_length.
Qed.
End primitives.

Lemma payload_cells_snoc n title evs ev :
  payload_cells n title (evs ++ [ev])
  = ODict (("attachments", VRef (S n)) :: title_entry title)
    :: OList (map VRef (seq (S (S n)) (length evs))
              ++ [VRef (S (S n) + length evs)])
    :: map ODict evs ++ [ODict ev].
Proof.
  unfold payload_cells.
  by rewrite length_app, seq_app, !map_app.
Qed.

Lemma payload_cells_length n title evs :
  length (payload_cells n title evs) = (2 + length evs)%nat.
Proof. unfold payload_cells; simpl. by rewrite length_map. Qed.

Section builder.
Context (h : list obj) (s : list request) (lg : list log_record)
        (net : list request -> post_result).
Context (self : loc) (url sup : value).
Hypothesis Hnotifier : is_notifier h self url sup.

(** One turn of the tagging loop adds one block to the payload built
    at the end of the store. *)
Lemma tag_member_ok level title evs id :
  tag_member (VRef self) (VRef (length h)) level (VStr id)
    (World (h ++ payload_cells (length h) title evs) s lg net)
  = (Ok tt,
     World (h ++ payload_cells (length h) title
                   (evs ++ [block (VStr (mention id)) (level_value level)]))
           s lg net).
Proof.
  destruct Hnotifier.
  unfold tag_member, bind.
  rewrite (getattr_ok _ _ _ _ self attrs _ (VRef tpl))
    by eauto using lookup_old.
  rewrite (deepcopy_blank _ _ _ _ tpl) by eauto using lookup_old.
  cbn [str ret].
  rewrite (setitem_ok _ _ _ _ _ blank) by apply lookup_at_length.
  rewrite insert_at_length.
  rewrite (setitem_ok _ _ _ _ _ (dict_set "text" (VStr (mention id)) blank))
    by apply lookup_at_length.
  rewrite insert_at_length.
  rewrite <- app_assoc, length_app, payload_cells_length.
  unfold payload_cells. cbn [app].
  rewrite (getitem_ok _ _ _ _ _ _ "attachments" (VRef (S (length h))))
    by (apply lookup_at_length || done).
  rewrite (list_append_ok _ _ _ _ _ _ _ (lookup_after_length _ _ _ _)).
  rewrite insert_after_length, length_app, seq_app, !map_app.
  by replace (length h + (2 + length evs))%nat
    with (S (S (length h)) + length evs)%nat by lia.
Qed.

Lemma tagging_ok level title ids : forall evs,
  for_each (tag_member (VRef self) (VRef (length h)) level) (map VStr ids)
    (World (h ++ payload_cells (length h) title evs) s lg net)
  = (Ok tt,
     World (h ++ payload_cells (length h) title
                   (evs ++ map (fun id => block (VStr (mention id))
                                            (level_value level)) ids))
           s lg net).
Proof.
  induction ids as [|id ids IH]; intros evs; simpl.
  - by rewrite app_nil_r.
  - unfold bind. rewrite tag_member_ok, IH.
    by rewrite <- app_assoc.
Qed.

Lemma iter_recipients tagged ids t :
  is_list h tagged ids ->
  iter tagged (World (h ++ t) s lg net)
  = (Ok (map VStr ids), World (h ++ t) s lg net).
Proof.
  intros (l & -> & Hl). unfold iter, bind, load; simpl.
  by rewrite (lookup_old _ _ _ _ Hl).
Qed.

Lemma tag_all_ok level title tagged ids evs :
  recipients h tagged ids ->
  match tagged with
  | VNone => ret tt
  | _ =>
      let* members := iter tagged in
      for_each (tag_member (VRef self) (VRef (length h)) level) members
  end (World (h ++ payload_cells (length h) title evs) s lg net)
  = (Ok tt,
     World (h ++ payload_cells (length h) title
                   (evs ++ map (fun id => block (VStr (mention id))
                                            (level_value level)) ids))
           s lg net).
Proof.
  intros [[-> ->]|Hl].
  - simpl. by rewrite app_nil_r.
  - assert (match tagged with
            | VNone => ret tt
            | _ =>
                let* members := iter tagged in
                for_each (tag_member (VRef self) (VRef (length h)) level)
                  members
            end
            = let* members := iter tagged in
              for_each (tag_member (VRef self) (VRef (length h)) level)
                members) as ->.
    { destruct Hl as (l & -> & _). done. }
    rewrite (bind_ok _ _ _ _ _ (iter_recipients _ _ _ Hl)).
    apply tagging_ok.
Qed.

Lemma append_block_ok d items t ev :
  dict_get "attachments" d = Some (VRef (S (length h))) ->
  (let* attachments := getitem (VRef (length h)) "attachments" in
   list_append attachments ev)
    (World (h ++ ODict d :: OList items :: t) s lg net)
  = (Ok tt, World (h ++ ODict d :: OList (items ++ [ev]) :: t) s lg net).
Proof.
  intros Hd.
  rewrite (bind_ok _ _ _ _ _
             (getitem_ok _ _ _ _ _ _ _ _ (lookup_at_length _ _ _) Hd)).
  rewrite (list_append_ok _ _ _ _ _ _ _ (lookup_after_length _ _ _ _)).
  by rewrite insert_after_length.
Qed.

Lemma set_title_ok title :
  match title with
  | VNone => ret tt
  | _ => setitem (VRef (length h)) "text" title
  end (World (h ++ [ODict [("attachments", VRef (S (length h)))]; OList []])
             s lg net)
  = (Ok tt,
     World (h ++ [ODict (("attachments", VRef (S (length h)))
                         :: title_entry title); OList []]) s lg net).
Proof.
  destruct title; try done.
  all: rewrite (setitem_ok _ _ _ _ _ _ _ _ (lookup_at_length _ _ _)).
  all: by rewrite insert_at_length.
Qed.

(** Up to the tagging loop the builder does not depend on the
    recipients: it copies the two templates and fills the message
    block in. *)
Lemma generate_unfold message level title tagged :
  _generate_message_slack (VRef self) message level title tagged
    (World h s lg net)
  = (match tagged with
     | VNone => ret tt
     | _ =>
         let* members := iter tagged in
         for_each (tag_member (VRef self) (VRef (length h)) level) members
     end ;; ret (VRef (length h)))
      (World (h ++ payload_cells (length h) title
                     [block message (level_value level)]) s lg net).
Proof.
  destruct Hnotifier.
  unfold _generate_message_slack.
  rewrite (bind_ok _ _ _ _ _ (getattr_ok _ _ _ _ self attrs _ _ Hself Hbase)).
  rewrite (bind_ok _ _ _ _ _ (deepcopy_base _ _ _ _ bt a0 Hbt Ha0)).
  rewrite (bind_ok _ _ _ _ _ (set_title_ok title)).
  set (D := ODict (("attachments", VRef (S (length h))) :: title_entry title)).
  set (g := h ++ [D; OList []]).
  rewrite (bind_ok _ _ _ _ _
             (getattr_ok g _ _ _ self attrs _ _ (lookup_old _ _ _ _ Hself) Htpl)).
  rewrite (bind_ok _ _ _ _ _
             (deepcopy_blank g _ _ _ tpl (lookup_old _ _ _ _ Hblank))).
  rewrite (bind_ok _ _ _ _ _
             (setitem_ok _ _ _ _ _ _ _ _ (lookup_at_length _ _ _))).
  rewrite insert_at_length.
  rewrite (bind_ok _ _ _ _ _
             (setitem_ok _ _ _ _ _ _ _ _ (lookup_at_length _ _ _))).
  rewrite insert_at_length.
  subst g D. rewrite <- app_assoc. cbn [app].
  rewrite (bind_ok _ _ _ _ _
             (append_block_ok
                (("attachments", VRef (S (length h))) :: title_entry title)
                _ _ _ eq_refl)).
  rewrite length_app. cbn [length app].
  by replace (length h + 2)%nat with (S (S (length h))) by lia.
Qed.

(** The payload is built in fresh cells at the end of the store, and
    nothing else changes. *)
Lemma generate_ok message level title tagged ids :
  recipients h tagged ids ->
  _generate_message_slack (VRef self) message level title tagged
    (World h s lg net)
  = (Ok (VRef (length h)),
     World (h ++ payload_cells (length h) title (blocks message level ids))
           s lg net).
Proof.
  intros Hrec. rewrite generate_unfold.
  by rewrite (bind_ok _ _ _ _ _ (tag_all_ok level title tagged ids _ Hrec)).
Qed.

(** A member that is a container stops the loop after the template
    has been copied. *)
Lemma tag_member_ref level title evs l :
  tag_member (VRef self) (VRef (length h)) level (VRef l)
    (World (h ++ payload_cells (length h) title evs) s lg net)
  = (Stuck,
     World ((h ++ payload_cells (length h) title evs) ++ [ODict blank])
           s lg net).
Proof.
  destruct Hnotifier. unfold tag_member.
  rewrite (bind_ok _ _ _ _ _
             (getattr_ok _ _ _ _ self attrs _ _ (lookup_old _ _ _ _ Hself) Htpl)).
  by rewrite (bind_ok _ _ _ _ _
             (deepcopy_blank _ _ _ _ tpl (lookup_old _ _ _ _ Hblank))).
Qed.

(** Whatever the members are, the loop only adds cells. *)
Lemma tagging_any level title members : forall evs,
  exists r t,
    for_each (tag_member (VRef self) (VRef (length h)) level) members
      (World (h ++ payload_cells (length h) title evs) s lg net)
    = (r, World (h ++ t) s lg net).
Proof.
  induction members as [|member members IH]; intros evs;
    [eexists _, _; reflexivity|].
  cbn [for_each]. destruct member as [|id|l].
  - change (tag_member (VRef self) (VRef (length h)) level VNone)
      with (tag_member (VRef self) (VRef (length h)) level (VStr "None")).
    rewrite (bind_ok _ _ _ _ _ (tag_member_ok level title evs "None")).
    apply IH.
  - rewrite (bind_ok _ _ _ _ _ (tag_member_ok level title evs id)).
    apply IH.
  - unfold bind. rewrite tag_member_ref, <- app_assoc.
    eexists _, _; reflexivity.
Qed.

Lemma iter_any tagged w : (iter tagged w).2 = w.
Proof.
  destruct tagged as [|chars_of|l]; try done.
  unfold iter, bind, load. by destruct (w_heap w !! l) as [[]|].
Qed.

Lemma generate_any message level title tagged :
  exists r t,
    _generate_message_slack (VRef self) message level title tagged
      (World h s lg net)
    = (r, World (h ++ t) s lg net).
Proof.
  rewrite generate_unfold.
  set (loop := let* members := iter tagged in
               for_each (tag_member (VRef self) (VRef (length h)) level)
                 members).
  assert (tagged = VNone \/
          match tagged with VNone => ret tt | _ => loop end = loop)
    as [->| ->] by (destruct tagged; auto).
  { eexists _, _. reflexivity. }
  subst loop.
  unfold bind at 1 2.
  pose proof (iter_any tagged
    (World (h ++ payload_cells (length h) title
                   [block message (level_value level)]) s lg net)) as Hit.
  destruct (iter tagged _) as [[members| |] w1]; simpl in Hit; subst w1;
    try (eexists _, _; reflexivity).
  destruct (tagging_any level title members
              [block message (level_value level)]) as (r & t & ->).
  destruct r; eexists _, _; reflexivity.
Qed.
End builder.

(** ** What [json.dumps] makes of a payload *)

Lemma res_mapM_ok_ext {A B} (f g : A -> res B) l ys :
  (forall x y, f x = Ok y -> g x = Ok y) ->
  res_mapM f l = Ok ys -> res_mapM g l = Ok ys.
Proof.
  intros Hfg. revert ys. induction l as [|x l IH]; intros ys; simpl; [done|].
  destruct (f x) as [y| |] eqn:Hx; simpl; try done.
  rewrite (Hfg _ _ Hx); simpl.
  destruct (res_mapM f l) as [ys'| |]; simpl; try done.
  intros Hys. by rewrite (IH ys').
Qed.

Lemma reify_ref fuel h l :
  reify (S fuel) h (VRef l)
  = match h !! l with
    | Some (OList items) =>
        res_bind (res_mapM (reify fuel h) items) (fun js => Ok (JArr js))
    | Some (ODict d) =>
        res_bind
          (res_mapM
             (fun kv => res_bind (reify fuel h kv.2) (fun j => Ok (kv.1, j))) d)
          (fun ms => Ok (JObj ms))
    | Some (OInst _) => Raise TypeError
    | None => Stuck
    end.
Proof. done. Qed.

(** More fuel does not change a document. *)
Lemma reify_S fuel h : forall x j,
  reify fuel h x = Ok j -> reify (S fuel) h x = Ok j.
Proof.
  induction fuel as [|fuel IH]; intros x j; [done|].
  destruct x as [|text|l]; try done.
  rewrite !reify_ref.
  destruct (h !! l) as [[items|d|d]|]; try done.
  - destruct (res_mapM (reify fuel h) items) as [js| |] eqn:Hjs; try done.
    by rewrite (res_mapM_ok_ext _ (reify (S fuel) h) _ _ IH Hjs).
  - destruct (res_mapM _ d) as [ms| |] eqn:Hms; try done.
    intros H. erewrite res_mapM_ok_ext; [exact H| |exact Hms].
    intros [k v] y. cbn [fst snd].
    destruct (reify fuel h v) eqn:Hv; try done.
    by rewrite (IH _ _ Hv).
Qed.

Lemma reify_le fuel fuel' h x j :
  (fuel <= fuel')%nat -> reify fuel h x = Ok j -> reify fuel' h x = Ok j.
Proof.
  induction 1 as [|k _ IH]; [done|]. intros Hr. by apply reify_S, IH.
Qed.

Lemma reify_blocks h color : forall ts base,
  (forall i t, ts !! i = Some t ->
     h !! (base + i)%nat = Some (ODict (block (VStr t) color))) ->
  res_mapM (reify 2 h) (map VRef (seq base (length ts)))
  = Ok (map (fun t => block_json t color) ts).
Proof.
  induction ts as [|t ts IH]; intros base Hcells; [done|].
  cbn [length seq map res_mapM].
  assert (reify 2 h (VRef base) = Ok (block_json t color)) as ->.
  { simpl. specialize (Hcells 0%nat t eq_refl).
    rewrite Nat.add_0_r in Hcells. by rewrite Hcells. }
  cbn [res_bind]. rewrite IH; [done|].
  intros i t' Hi.
  replace (S base + i)%nat with (base + S i)%nat by lia.
  by apply (Hcells (S i)).
Qed.

Lemma blocks_texts message level ids :
  blocks (VStr message) level ids
  = map (fun t => block (VStr t) (level_value level)) (texts message ids).
Proof. unfold blocks, texts; simpl. by rewrite map_map. Qed.

Lemma blocks_json_texts message level ids :
  blocks_json message level ids
  = map (fun t => block_json t (level_value level)) (texts message ids).
Proof. unfold blocks_json, texts; simpl. by rewrite map_map. Qed.

Lemma reify_payload h message level title ids :
  let h' := h ++ payload_cells (length h) (opt_str title)
                   (blocks (VStr message) level ids) in
  reify (S (length h')) h' (VRef (length h))
  = Ok (payload_json message level title ids).
Proof.
  intros h'. apply (reify_le 4).
  { subst h'. rewrite length_app, payload_cells_length. simpl. lia. }
  subst h'. rewrite blocks_texts.
  unfold payload_json. rewrite blocks_json_texts.
  set (ts := texts message ids).
  set (c := level_value level).
  unfold payload_cells.
  set (h' := h ++ _).
  assert (reify 3 h' (VRef (S (length h)))
          = Ok (JArr (map (fun t => block_json t c) ts))) as Hatt.
  { rewrite reify_ref. subst h'. rewrite lookup_after_length.
    rewrite length_map, (reify_blocks _ c); [done|].
    intros i t Hi.
    rewrite lookup_app_r by lia.
    replace (S (S (length h)) + i - length h)%nat with (S (S i)) by lia.
    change (map ODict (map (fun t0 => block (VStr t0) c) ts) !! i
            = Some (ODict (block (VStr t) c))).
    by rewrite !lookup_map, Hi. }
  rewrite reify_ref. subst h'. rewrite lookup_at_length.
  set (h' := h ++ _) in *.
  cbn [res_mapM snd fst]. rewrite Hatt. cbn [res_bind].
  by destruct title.
Qed.

Lemma built_payload_generate w self url sup message level title tagged ids :
  is_notifier (w_heap w) self url sup ->
  recipients (w_heap w) tagged ids ->
  built_payload
    (_generate_message_slack (VRef self) (VStr message) level (opt_str title)
       tagged) w
  = Ok (payload_json message level title ids).
Proof.
  destruct w as [h s lg net]; simpl. intros Hn Hrec.
  unfold built_payload.
  rewrite (bind_ok _ _ _ _ _
             (generate_ok h s lg net self url sup Hn _ _ _ _ _ Hrec)).
  unfold json_dumps; simpl. apply reify_payload.
Qed.

(** ** The transport *)

Section transport.
Context (h : list obj) (net : list request -> post_result).
Context (self : loc) (attrs : list (string * value)) (url data : value)
        (body : json).
Hypothesis Hself : h !! self = Some (OInst attrs).
Hypothesis Hurl : dict_get "webhook_url" attrs = Some url.
Hypothesis Hbody : reify (S (length h)) h data = Ok body.

Local Abbreviation req := (Request url body json_headers).

(** One turn performs exactly one request and leaves the store
    alone. *)
Lemma attempt_ok s lg :
  exists lg',
    attempt (VRef self) data (World h s lg net)
    = (verdict (net (s ++ [req])), World h (s ++ [req]) lg' net).
Proof.
  unfold attempt, try_except.
  rewrite (bind_ok _ _ _ _ _ (getattr_ok _ _ _ _ _ _ _ _ Hself Hurl)).
  unfold bind at 1. unfold json_dumps at 1. cbn [w_heap]. rewrite Hbody.
  unfold bind, requests_post, logger_info, logger_error, logger_error_exn,
    log, ret; cbn [w_heap w_sent w_log w_net].
  fold json_headers.
  destruct (net (s ++ [req])) as [c|e]; cbn [verdict].
  - destruct (c =? 200)%Z; eauto.
  - destruct e; eauto.
Qed.

Lemma outcome_shift s lg lg' i :
  outcome (World h (s ++ [req]) lg' net) req i
  = outcome (World h s lg net) req (S i).
Proof. unfold outcome; simpl. by rewrite <- app_assoc. Qed.

Lemma retried_verdict o : retried o -> verdict o = Ok false.
Proof.
  destruct o as [c|[]]; simpl; try done.
  intros Hc. by apply Z.eqb_neq in Hc as ->.
Qed.

(** The loop stops at the first request answered with status 200. *)
Lemma attempts_first_200 k : forall n s lg,
  (k < n)%nat ->
  (forall i, (i < k)%nat -> retried (outcome (World h s lg net) req i)) ->
  outcome (World h s lg net) req k = Responds 200 ->
  exists lg',
    attempts (VRef self) data n (World h s lg net)
    = (Ok tt, World h (s ++ repeat req (S k)) lg' net).
Proof.
  induction k as [|k IH]; intros [|n] s lg Hk Hretried H200; try lia.
  - destruct (attempt_ok s lg) as [lg' Hstep].
    change (net (s ++ [req])) with (outcome (World h s lg net) req 0)
      in Hstep.
    rewrite H200 in Hstep.
    exists lg'. cbn [attempts]. by rewrite (bind_ok _ _ _ _ _ Hstep).
  - destruct (attempt_ok s lg) as [lg' Hstep].
    change (net (s ++ [req])) with (outcome (World h s lg net) req 0)
      in Hstep.
    rewrite (retried_verdict _ (Hretried 0%nat ltac:(lia))) in Hstep.
    destruct (IH n (s ++ [req]) lg') as [lg'' Hrest]; [lia| | |].
    + intros i Hi. rewrite (outcome_shift s lg). apply Hretried. lia.
    + by rewrite (outcome_shift s lg).
    + exists lg''. cbn [attempts]. rewrite (bind_ok _ _ _ _ _ Hstep).
      rewrite Hrest. by rewrite <- app_assoc.
Qed.

(** Without a 200 the loop uses its whole budget and ends normally. *)
Lemma attempts_exhaust n : forall s lg,
  (forall i, (i < n)%nat -> retried (outcome (World h s lg net) req i)) ->
  exists lg',
    attempts (VRef self) data n (World h s lg net)
    = (Ok tt, World h (s ++ repeat req n) lg' net).
Proof.
  induction n as [|n IH]; intros s lg Hretried.
  - exists lg. simpl. by rewrite app_nil_r.
  - destruct (attempt_ok s lg) as [lg' Hstep].
    change (net (s ++ [req])) with (outcome (World h s lg net) req 0)
      in Hstep.
    rewrite (retried_verdict _ (Hretried 0%nat ltac:(lia))) in Hstep.
    destruct (IH (s ++ [req]) lg') as [lg'' Hrest].
    + intros i Hi. rewrite (outcome_shift s lg). apply Hretried. lia.
    + exists lg''. cbn [attempts]. rewrite (bind_ok _ _ _ _ _ Hstep).
      rewrite Hrest. by rewrite <- app_assoc.
Qed.

(** Whatever the remote side does, every request of the loop carries
    the same payload, and there is one as soon as the budget allows. *)
Lemma attempts_sent n : forall s lg,
  exists r k lg',
    (k <= n)%nat /\ ((0 < n)%nat -> (0 < k)%nat) /\
    attempts (VRef self) data n (World h s lg net)
    = (r, World h (s ++ repeat req k) lg' net).
Proof.
  induction n as [|n IH]; intros s lg.
  - exists (Ok tt), 0%nat, lg. simpl. rewrite app_nil_r.
    repeat split; lia.
  - destruct (attempt_ok s lg) as [lg' Hstep].
    cbn [attempts]. unfold bind at 1. rewrite Hstep.
    destruct (verdict (net (s ++ [req]))) as [[|]| |].
    + exists (Ok tt), 1%nat, lg'. repeat split; lia.
    + destruct (IH (s ++ [req]) lg') as (r & k & lg'' & Hk & _ & Hrest).
      exists r, (S k), lg''. rewrite Hrest, <- app_assoc.
      repeat split; lia.
    + exists (Raise e), 1%nat, lg'. repeat split; lia.
    + exists Stuck, 1%nat, lg'. repeat split; lia.
Qed.

(** After [k] retried requests the loop performs one more, as long as
    its budget allows. *)
Lemma attempts_continue k : forall n s lg,
  (k < n)%nat ->
  (forall i, (i < k)%nat -> retried (outcome (World h s lg net) req i)) ->
  exists r k' lg',
    (k < k' <= n)%nat /\
    attempts (VRef self) data n (World h s lg net)
    = (r, World h (s ++ repeat req k') lg' net).
Proof.
  induction k as [|k IH]; intros [|n] s lg Hk Hretried; try lia.
  - destruct (attempts_sent (S n) s lg) as (r & k' & lg' & Hle & Hpos & Hrun).
    exists r, k', lg'. split; [lia|done].
  - destruct (attempt_ok s lg) as [lg' Hstep].
    change (net (s ++ [req])) with (outcome (World h s lg net) req 0)
      in Hstep.
    rewrite (retried_verdict _ (Hretried 0%nat ltac:(lia))) in Hstep.
    destruct (IH n (s ++ [req]) lg') as (r & k' & lg'' & Hk' & Hrest);
      [lia| |].
    + intros i Hi. rewrite (outcome_shift s lg). apply Hretried. lia.
    + exists r, (S k'), lg''. split; [lia|].
      cbn [attempts]. rewrite (bind_ok _ _ _ _ _ Hstep).
      rewrite Hrest. by rewrite <- app_assoc.
Qed.
End transport.

(** ** Computations that only talk to the network *)

Lemma sends_none {A} (m : M A) :
  (forall w, (m w).2 = w \/
             exists lg, (m w).2 = World (w_heap w) (w_sent w) lg (w_net w)) ->
  sends_at_most 0 m.
Proof.
  intros Hm w. exists []. rewrite app_nil_r.
  destruct (Hm w) as [->|[lg ->]]; done.
Qed.

Lemma sends_ret {A} (a : A) : sends_at_most 0 (ret a).
Proof. apply sends_none. by left. Qed.

Lemma sends_raise {A} e : sends_at_most 0 (@raise A e).
Proof. apply sends_none. by left. Qed.

Lemma sends_log r : sends_at_most 0 (log r).
Proof. apply sends_none. right. by eexists. Qed.

Lemma sends_load l : sends_at_most 0 (load l).
Proof. apply sends_none. intros w. left. unfold load. by case_match. Qed.

Lemma sends_json_dumps x : sends_at_most 0 (json_dumps x).
Proof. apply sends_none. by left. Qed.

Lemma sends_post url data headers :
  sends_at_most 1 (requests_post url data headers).
Proof.
  intros w. exists [Request url data headers].
  unfold requests_post. by case_match.
Qed.

Lemma sends_le {A} j k (m : M A) :
  (j <= k)%nat -> sends_at_most j m -> sends_at_most k m.
Proof.
  intros Hjk Hm w. destruct (Hm w) as (reqs & Hlen & Hrest).
  exists reqs. split; [lia|done].
Qed.

Lemma sends_bind {A B} j k (m : M A) (f : A -> M B) :
  sends_at_most j m -> (forall a, sends_at_most k (f a)) ->
  sends_at_most (j + k) (bind m f).
Proof.
  intros Hm Hf w. destruct (Hm w) as (r1 & Hlen1 & Hs1 & Hh1 & Hn1).
  unfold bind. destruct (m w) as [[a| |] w1]; simpl in *;
    try (exists r1; repeat split; (lia || done)).
  destruct (Hf a w1) as (r2 & Hlen2 & Hs2 & Hh2 & Hn2).
  exists (r1 ++ r2). rewrite Hs2, Hs1, Hh2, Hn2, length_app, app_assoc.
  repeat split; (lia || done).
Qed.

Lemma sends_try {A} j k (body : M A) handler :
  sends_at_most j body ->
  (forall e m, handler e = Some m -> sends_at_most k m) ->
  sends_at_most (j + k) (try_except body handler).
Proof.
  intros Hm Hf w. destruct (Hm w) as (r1 & Hlen1 & Hs1 & Hh1 & Hn1).
  unfold try_except. destruct (body w) as [[a|e|] w1]; simpl in *;
    try (exists r1; repeat split; (lia || done)).
  destruct (handler e) as [m|] eqn:He;
    [|exists r1; repeat split; (lia || done)].
  destruct (Hf e m He w1) as (r2 & Hlen2 & Hs2 & Hh2 & Hn2).
  exists (r1 ++ r2). rewrite Hs2, Hs1, Hh2, Hn2, length_app, app_assoc.
  repeat split; (lia || done).
Qed.

Lemma sends_getattr x name : sends_at_most 0 (getattr x name).
Proof.
  destruct x; try apply sends_raise.
  apply (sends_bind 0 0); [apply sends_load|].
  intros [| |attrs]; try apply sends_raise.
  case_match; [apply sends_ret|apply sends_raise].
Qed.

(** A turn of the loop performs at most one request, whatever the store
    holds, and writes nothing to the store. *)
Lemma attempt_any self data : sends_at_most 1 (attempt self data).
Proof.
  apply (sends_try 1 0).
  - apply (sends_bind 0 1); [apply sends_getattr|intros url].
    apply (sends_bind 0 1); [apply sends_json_dumps|intros body].
    apply (sends_bind 1 0); [apply sends_post|intros status_code].
    case_match; (apply (sends_bind 0 0); [apply sends_log|]);
      intros _; apply sends_ret.
  - intros e m He.
    destruct e; simplify_eq/=;
      repeat (apply (sends_bind 0 0); [apply sends_log|intros _]);
      apply sends_ret.
Qed.

Lemma attempts_any self data n : sends_at_most n (attempts self data n).
Proof.
  induction n as [|n IH]; [apply sends_ret|].
  apply (sends_bind 1 n); [apply attempt_any|].
  intros [|]; [|done]. apply (sends_le 0); [lia|apply sends_ret].
Qed.

(** ** The constructor *)

Lemma setattr_new (h : list obj) s lg net attrs t name v :
  setattr (VRef (length h)) name v (World (h ++ OInst attrs :: t) s lg net)
  = (Ok tt, World (h ++ OInst (dict_set name v attrs) :: t) s lg net).
Proof.
  unfold setattr, bind, load, store; simpl.
  rewrite lookup_at_length; simpl. by rewrite insert_at_length.
Qed.

Lemma alloc_after (h t : list obj) s lg net o :
  alloc o (World (h ++ t) s lg net)
  = (Ok (VRef (length h + length t)), World (h ++ t ++ [o]) s lg net).
Proof. unfold alloc; simpl. by rewrite length_app, <- app_assoc. Qed.

Lemma Slackython_ok h s lg net webhook slack_supervisors :
  Slackython webhook slack_supervisors (World h s lg net)
  = (Ok (VRef (length h)),
     World (h ++ notifier_cells (length h) webhook slack_supervisors)
           s lg net).
Proof.
  unfold Slackython, __init__.
  rewrite (bind_ok _ _ (World h s lg net) (VRef (length h))
             (World (h ++ [OInst []]) s lg net) eq_refl).
  destruct slack_supervisors as [|text|l].
  all: repeat first
    [ rewrite bind_assoc
    | rewrite (bind_ok _ _ _ _ _ (setattr_new _ _ _ _ _ _ _ _))
    | rewrite (bind_ok _ _ _ _ _ (alloc_after h (_ :: _) s lg net _));
      cbn [app length]
    | rewrite (bind_ok _ _ _ _ _ (ret_ok _ _)) ].
  all: done.
Qed.

Lemma lookup_new (h t : list obj) i :
  (h ++ t) !! (length h + i)%nat = t !! i.
Proof.
  rewrite lookup_app_r by lia. f_equal. lia.
Qed.

Lemma Slackython_notifier h webhook slack_supervisors :
  is_notifier (h ++ notifier_cells (length h) webhook slack_supervisors)
    (length h) webhook (stored_supervisors (length h) slack_supervisors).
Proof.
  apply (IsNotifier _ _ _ _
           [("webhook_url", webhook);
            ("slack_supervisors",
             stored_supervisors (length h) slack_supervisors);
            ("base_template", VRef (length h + 3));
            ("attachment_template", VRef (length h + 4))]
           (length h + 3)%nat (length h + 2)%nat (length h + 4)%nat);
    try done.
  - apply lookup_at_length.
  - by rewrite lookup_new.
  - by rewrite lookup_new.
  - by rewrite lookup_new.
Qed.

Lemma is_notifier_grow h t self url sup :
  is_notifier h self url sup -> is_notifier (h ++ t) self url sup.
Proof.
  intros []. econstructor; eauto using lookup_old.
Qed.

(** ** The three send operations *)

Section sends.
Context (h : list obj) (s : list request) (lg : list log_record)
        (net : list request -> post_result).
Context (self : loc) (url sup : value).
Hypothesis Hnotifier : is_notifier h self url sup.

(** The common end of the three operations: log, then deliver. *)
Lemma deliver_ok prefix message level title ids :
  let h' := h ++ payload_cells (length h) (opt_str title)
                   (blocks (VStr message) level ids) in
  exists r k lg',
    (1 <= k <= 3)%nat /\
    ((let* m := str (VStr message) in logger_info (prefix +:+ m)) ;;
     _send_to_webhook (VRef self) (VRef (length h)) None ;;
     ret VNone) (World h' s lg net)
    = (r, World h' (s ++ repeat (Request url
                                   (payload_json message level title ids)
                                   json_headers) k) lg' net).
Proof.
  intros h'. destruct (is_notifier_grow h
    (payload_cells (length h) (opt_str title)
       (blocks (VStr message) level ids)) _ _ _ Hnotifier).
  fold h' in Hself.
  destruct (attempts_sent h' net self attrs url (VRef (length h))
              (payload_json message level title ids) Hself Hurl
              (reify_payload h message level title ids) 3 s
              (lg ++ [LogInfo (prefix +:+ message)]))
    as (r & k & lg' & Hk & Hpos & Hrun).
  exists (res_bind r (fun _ => Ok VNone)), k, lg'. split; [lia|].
  rewrite (bind_ok _ _ (World h' s lg net) tt
             (World h' s (lg ++ [LogInfo (prefix +:+ message)]) net) eq_refl).
  unfold _send_to_webhook. cbn [default]. rewrite !bind_assoc.
  unfold bind at 1. change (Z.to_nat 3) with 3%nat. rewrite Hrun.
  by destruct r.
Qed.

Lemma send_message_delivers message title tagged ids :
  recipients h tagged ids ->
  delivers (send_message (VRef self) (VStr message) (opt_str title) tagged)
    (World h s lg net) url (payload_json message NORMAL title ids).
Proof.
  intros Hrec. unfold delivers, send_message.
  rewrite (bind_ok _ _ _ _ _
             (generate_ok h s lg net self url sup Hnotifier _ _ _ _ _ Hrec)).
  destruct (deliver_ok "Sending message " message NORMAL title ids)
    as (r & k & lg' & Hk & Hrun).
  eexists r, k, lg', _. split; [done|exact Hrun].
Qed.

Lemma send_information_delivers message title tagged ids :
  recipients h tagged ids ->
  delivers
    (send_information (VRef self) (VStr message) (opt_str title) tagged)
    (World h s lg net) url (payload_json message INFORMATION title ids).
Proof.
  intros Hrec. unfold delivers, send_information.
  rewrite (bind_ok _ _ _ _ _
             (generate_ok h s lg net self url sup Hnotifier _ _ _ _ _ Hrec)).
  destruct (deliver_ok "Sending information " message INFORMATION title ids)
    as (r & k & lg' & Hk & Hrun).
  eexists r, k, lg', _. split; [done|exact Hrun].
Qed.

(** The recipient list [send_error] hands to the builder. *)
Lemma send_error_list tagged :
  match tagged with
  | VNone => getattr (VRef self) "slack_supervisors"
  | _ => ret tagged
  end (World h s lg net)
  = (Ok match tagged with VNone => sup | _ => tagged end,
     World h s lg net).
Proof.
  destruct Hnotifier. destruct tagged; try done.
  by apply getattr_ok with attrs.
Qed.

Lemma send_error_delivers message title tagged ids :
  is_list h match tagged with VNone => sup | _ => tagged end ids ->
  delivers (send_error (VRef self) (VStr message) (opt_str title) tagged)
    (World h s lg net) url (payload_json message CRITICAL title ids).
Proof.
  intros Hrec. unfold delivers, send_error.
  rewrite (bind_ok _ _ _ _ _ (send_error_list tagged)).
  rewrite (bind_ok _ _ _ _ _
             (generate_ok h s lg net self url sup Hnotifier _ _ _ _ _
                (or_intror Hrec))).
  destruct (deliver_ok "Sending error " message CRITICAL title ids)
    as (r & k & lg' & Hk & Hrun).
  eexists r, k, lg', _. split; [done|exact Hrun].
Qed.

(** *** Nothing is written to the cells that were there before *)

Lemma sends_tail prefix (message data : value) :
  sends_at_most 3
    ((let* m := str message in logger_info (prefix +:+ m)) ;;
     _send_to_webhook (VRef self) data None ;;
     ret VNone).
Proof.
  apply (sends_bind 0 3).
  { apply (sends_bind 0 0).
    - apply sends_none. intros w. left. by destruct message.
    - intros m. apply sends_log. }
  intros _. apply (sends_bind 3 0); [|intros _; apply sends_ret].
  apply (sends_bind 3 0); [|intros _; apply sends_ret].
  apply attempts_any.
Qed.

Lemma grows_then_sends {A B} (m : M A) (f : A -> M B) k :
  (exists r t, m (World h s lg net) = (r, World (h ++ t) s lg net)) ->
  (forall a, sends_at_most k (f a)) ->
  exists t, w_heap (bind m f (World h s lg net)).2 = h ++ t.
Proof.
  intros (r & t & Hm) Hf. unfold bind. rewrite Hm.
  destruct r as [a| |]; try by exists t.
  destruct (Hf a (World (h ++ t) s lg net)) as (_ & _ & _ & -> & _).
  by exists t.
Qed.

Lemma generate_grows message level title tagged :
  exists t,
    w_heap (_generate_message_slack (VRef self) message level title tagged
              (World h s lg net)).2 = h ++ t.
Proof.
  destruct (generate_any h s lg net self url sup Hnotifier
              message level title tagged) as (r & t & ->).
  by exists t.
Qed.

Lemma send_message_grows message title tagged :
  exists t,
    w_heap (send_message (VRef self) message title tagged
              (World h s lg net)).2 = h ++ t.
Proof.
  apply (grows_then_sends _ _ 3);
    eauto using generate_any, sends_tail.
Qed.

Lemma send_information_grows message title tagged :
  exists t,
    w_heap (send_information (VRef self) message title tagged
              (World h s lg net)).2 = h ++ t.
Proof.
  apply (grows_then_sends _ _ 3);
    eauto using generate_any, sends_tail.
Qed.

Lemma send_error_grows message title tagged :
  exists t,
    w_heap (send_error (VRef self) message title tagged
              (World h s lg net)).2 = h ++ t.
Proof.
  unfold send_error.
  rewrite (bind_ok _ _ _ _ _ (send_error_list tagged)).
  apply (grows_then_sends _ _ 3);
    eauto using generate_any, sends_tail.
Qed.
End sends.

(** * Runs on the example world *)

(** The end-to-end example: one request answered with 200. *)
Example send_error_run :
  let run := send_error (VRef 1) (VStr "disk full") VNone VNone
               (example_world [Responds 200]) in
  run.1 = Ok VNone /\
  w_sent run.2
  = [Request example_url
       (JObj [("attachments",
               JArr [JObj [("text", JStr "disk full");
                           ("color", JStr "#d50000")];
                     JObj [("text", JStr "<@U1>"); ("color", JStr "#d50000")];
                     JObj [("text", JStr "<@U2>");
                           ("color", JStr "#d50000")]])])
       json_headers] /\
  w_log run.2 = [LogInfo "Sending error disk full"; LogInfo "Success response"].
Proof. by vm_compute. Qed.

(** A title goes after the attachments, as the key is set later. *)
Example send_message_title_run :
  built_payload
    (_generate_message_slack (VRef 1) (VStr "Status: Working") NORMAL
       (VStr "Slackython") VNone) (example_world [])
  = Ok (JObj [("attachments",
               JArr [JObj [("text", JStr "Status: Working");
                           ("color", JStr "#00C853")]]);
              ("text", JStr "Slackython")]).
Proof. by vm_compute. Qed.

(** An exception outside the [requests] family is not caught: the
    first request is the last, and the exception reaches the caller. *)
Example other_error_escapes :
  let run := send_message (VRef 1) (VStr "ok") VNone VNone
               (example_world [Fails OtherError; Responds 200]) in
  run.1 = Raise OtherError /\ length (w_sent run.2) = 1%nat.
Proof. by vm_compute. Qed.

(** The templates of the instance are untouched by a send. *)
Example templates_after_send :
  let w := example_world [Responds 200] in
  let run := send_error (VRef 1) (VStr "disk full") (VStr "Alert") VNone w in
  take (length (w_heap w)) (w_heap run.2) = w_heap w.
Proof. by vm_compute. Qed.

(** * The claims *)

(** C1.  With no explicit recipient list [send_error] posts a payload
    that mentions the stored supervisors, one block each, in order;
    with an explicit list it mentions the members of that list and no
    one else.  For the supervisors U1 and U2 and the message
    "disk full" the payload is the one the specification shows. *)
Theorem C1_send_error_recipients w self url sup sups message title :
  is_notifier (w_heap w) self url sup ->
  is_list (w_heap w) sup sups ->
  let mentions ids :=
    map (fun id => JObj [("text", JStr ("<@" +:+ id +:+ ">"));
                         ("color", JStr "#d50000")]) ids in
  let payload ids :=
    JObj (("attachments",
           JArr (JObj [("text", JStr message); ("color", JStr "#d50000")]
                 :: mentions ids))
          :: match title with
             | Some t => [("text", JStr t)]
             | None => []
             end) in
  delivers (send_error (VRef self) (VStr message) (opt_str title) VNone)
    w url (payload sups) /\
  (forall tagged ids,
     is_list (w_heap w) tagged ids ->
     delivers (send_error (VRef self) (VStr message) (opt_str title) tagged)
       w url (payload ids)) /\
  (sups = ["U1"; "U2"] -> message = "disk full" -> title = None ->
   delivers (send_error (VRef self) (VStr message) VNone VNone) w url
     (JObj [("attachments",
             JArr [JObj [("text", JStr "disk full");
                         ("color", JStr "#d50000")];
                   JObj [("text", JStr "<@U1>"); ("color", JStr "#d50000")];
                   JObj [("text", JStr "<@U2>");
                         ("color", JStr "#d50000")]])])).
Proof.
  intros Hn Hsup mentions payload.
  destruct w as [h s lg net]; simpl in *.
  assert (delivers
            (send_error (VRef self) (VStr message) (opt_str title) VNone)
            (World h s lg net) url (payload sups)) as Hdefault
    by by apply send_error_delivers with sup.
  split; [done|split].
  - intros tagged ids Hl.
    apply (send_error_delivers h s lg net self url sup Hn message title
             tagged ids).
    destruct Hl as (l & -> & Hl). by exists l.
  - by intros -> -> ->.
Qed.

Lemma C1_send_error_recipients_witness :
  delivers (send_error (VRef 1) (VStr "disk full") VNone VNone)
    (example_world []) example_url
    (JObj [("attachments",
            JArr [JObj [("text", JStr "disk full"); ("color", JStr "#d50000")];
                  JObj [("text", JStr "<@U1>"); ("color", JStr "#d50000")];
                  JObj [("text", JStr "<@U2>"); ("color", JStr "#d50000")]])]).
Proof.
  refine (proj2 (proj2 (C1_send_error_recipients (example_world []) 1
                          example_url (VRef 0) ["U1"; "U2"] "disk full" None
                          _ _)) eq_refl eq_refl eq_refl).
  - example_notifier.
  - example_list.
Defined.

(** C2.  For every level and every message string, the payload built
    with no title and no recipients has exactly one block, whose text
    is the message and whose colour is the colour of the level:
    #00C853 for NORMAL, #FFD600 for INFORMATION, #d50000 for
    CRITICAL. *)
Theorem C2_single_block w self url sup level message :
  is_notifier (w_heap w) self url sup ->
  built_payload
    (_generate_message_slack (VRef self) (VStr message) level VNone VNone) w
  = Ok (JObj [("attachments",
               JArr [JObj [("text", JStr message);
                           ("color", JStr (level_value level))]])])
  /\ level_value NORMAL = "#00C853"
  /\ level_value INFORMATION = "#FFD600"
  /\ level_value CRITICAL = "#d50000".
Proof.
  intros Hn. split; [|done].
  apply (built_payload_generate w self url sup message level None VNone []
           Hn).
  by left.
Qed.

Lemma C2_single_block_witness :
  built_payload
    (_generate_message_slack (VRef 1) (VStr "Status: Working") INFORMATION
       VNone VNone) (example_world [])
  = Ok (JObj [("attachments",
               JArr [JObj [("text", JStr "Status: Working");
                           ("color", JStr "#FFD600")]])]).
Proof.
  apply (C2_single_block (example_world []) 1 example_url (VRef 0)
           INFORMATION "Status: Working").
  example_notifier.
Defined.

(** C3.  For every recipient list of length n the payload has exactly
    n+1 blocks: the first is the message block, and block i+1 is the
    mention of the i-th recipient, with text <@id>, in the colour of
    the message block. *)
Theorem C3_mention_blocks w self url sup level message title tagged ids :
  is_notifier (w_heap w) self url sup ->
  is_list (w_heap w) tagged ids ->
  exists payload bs,
    built_payload
      (_generate_message_slack (VRef self) (VStr message) level
         (opt_str title) tagged) w = Ok payload /\
    field "attachments" payload = Some (JArr bs) /\
    length bs = S (length ids) /\
    bs !! 0%nat = Some (JObj [("text", JStr message);
                              ("color", JStr (level_value level))]) /\
    forall i id, ids !! i = Some id ->
      bs !! S i = Some (JObj [("text", JStr ("<@" +:+ id +:+ ">"));
                              ("color", JStr (level_value level))]).
Proof.
  intros Hn Hl.
  exists (payload_json message level title ids),
         (blocks_json message level ids).
  split; [|split; [done|split; [|split; [done|]]]].
  - apply (built_payload_generate w self url sup); [done|by right].
  - unfold blocks_json; simpl. by rewrite length_map.
  - intros i id Hi. unfold blocks_json; simpl.
    by rewrite lookup_map, Hi.
Qed.

Lemma C3_mention_blocks_witness :
  exists payload bs,
    built_payload
      (_generate_message_slack (VRef 1) (VStr "disk full") NORMAL
         (opt_str None) (VRef 0)) (example_world []) = Ok payload /\
    field "attachments" payload = Some (JArr bs) /\
    length bs = 3%nat /\
    bs !! 0%nat = Some (JObj [("text", JStr "disk full");
                              ("color", JStr "#00C853")]) /\
    forall i id, ["U1"; "U2"] !! i = Some id ->
      bs !! S i = Some (JObj [("text", JStr ("<@" +:+ id +:+ ">"));
                              ("color", JStr "#00C853")]).
Proof.
  apply (C3_mention_blocks (example_world []) 1 example_url (VRef 0) NORMAL
           "disk full" None (VRef 0) ["U1"; "U2"]).
  - example_notifier.
  - example_list.
Defined.

Lemma send_to_webhook_run self data retries w :
  _send_to_webhook self data retries w
  = (res_bind (attempts self data (Z.to_nat (default 3 retries)) w).1
       (fun _ => Ok VNone),
     (attempts self data (Z.to_nat (default 3 retries)) w).2).
Proof.
  unfold _send_to_webhook, bind.
  by destruct (attempts _ _ _ w) as [[]].
Qed.

(** C4.  With a budget of n (3 when the argument is omitted, none
    when it is below zero) the transport performs at most n requests,
    one after the other.  As
    long as the requests so far were answered with a status other than
    200 (or failed inside the [requests] family) and budget remains,
    it performs the next one; at the first answer 200 it stops, and
    the rest of the budget stays unused. *)
Theorem C4_retry_budget w self data retries :
  let n := Z.to_nat (default 3 retries) in
  let run := _send_to_webhook self data retries w in
  (exists reqs,
     (length reqs <= n)%nat /\ w_sent run.2 = w_sent w ++ reqs) /\
  (retries = None -> n = 3%nat) /\
  forall l attrs url body,
    self = VRef l ->
    w_heap w !! l = Some (OInst attrs) ->
    dict_get "webhook_url" attrs = Some url ->
    (json_dumps data w).1 = Ok body ->
    let req := Request url body json_headers in
    forall k,
      (k < n)%nat ->
      (forall i, (i < k)%nat -> retried (outcome w req i)) ->
      (exists k', (k < k' <= n)%nat /\
                  w_sent run.2 = w_sent w ++ repeat req k') /\
      (outcome w req k = Responds 200 ->
       run.1 = Ok VNone /\ w_sent run.2 = w_sent w ++ repeat req (S k)).
Proof.
  intros n run. subst run. rewrite send_to_webhook_run. fold n.
  cbn [fst snd]. split; [|split].
  - destruct (attempts_any self data n w) as (reqs & Hlen & Hs & _).
    by exists reqs.
  - by intros ->.
  - intros l attrs url body -> Hself Hurl Hbody k Hk Hretried.
    destruct w as [h s lg net]; simpl in *.
    split.
    + destruct (attempts_continue h net l attrs url data body Hself Hurl
                  Hbody k n s lg Hk Hretried) as (r & k' & lg' & Hk' & ->).
      by exists k'.
    + intros H200.
      destruct (attempts_first_200 h net l attrs url data body Hself Hurl
                  Hbody k n s lg Hk Hretried H200) as (lg' & ->).
      done.
Qed.

Lemma C4_retry_budget_witness :
  let w := example_world [Responds 503; Fails Timeout; Responds 200] in
  let req := Request example_url (JObj [("attachments", JArr [])])
               json_headers in
  let run := _send_to_webhook (VRef 1) (VRef 4) (Some 5) w in
  run.1 = Ok VNone /\ w_sent run.2 = [req; req; req].
Proof.
  intros w req run.
  refine (proj2 (proj2 (proj2 (C4_retry_budget w (VRef 1) (VRef 4) (Some 5)))
                   1%nat _ example_url (JObj [("attachments", JArr [])])
                   eq_refl eq_refl eq_refl eq_refl 2%nat _ _) _).
  - vm_compute. lia.
  - intros [|[|i]] Hi; vm_compute; (done || lia).
  - reflexivity.
Defined.

(** C5.  When every request of the budget fails with a timeout, too
    many redirects or another error of the [requests] family, or is
    answered with a status other than 200, the transport uses its
    whole budget and then returns [None]: nothing is raised, the store
    is as before, and the result is the one a success gives. *)
Theorem C5_exhaustion_returns w l attrs url data body retries :
  w_heap w !! l = Some (OInst attrs) ->
  dict_get "webhook_url" attrs = Some url ->
  (json_dumps data w).1 = Ok body ->
  let n := Z.to_nat (default 3 retries) in
  let req := Request url body json_headers in
  (forall i, (i < n)%nat -> retried (outcome w req i)) ->
  exists lg',
    _send_to_webhook (VRef l) data retries w
    = (Ok VNone,
       World (w_heap w) (w_sent w ++ repeat req n) lg' (w_net w)).
Proof.
  intros Hself Hurl Hbody n req Hretried.
  destruct w as [h s lg net]; simpl in *.
  destruct (attempts_exhaust h net l attrs url data body Hself Hurl Hbody
              n s lg Hretried) as (lg' & Hrun).
  exists lg'. rewrite send_to_webhook_run. fold n. by rewrite Hrun.
Qed.

Lemma C5_exhaustion_returns_witness :
  let w := example_world [Fails Timeout; Fails TooManyRedirects;
                          Fails RequestException] in
  let req := Request example_url (JObj [("attachments", JArr [])])
               json_headers in
  exists lg',
    _send_to_webhook (VRef 1) (VRef 4) None w
    = (Ok VNone, World (w_heap w) (w_sent w ++ repeat req 3) lg' (w_net w)).
Proof.
  intros w req.
  refine (C5_exhaustion_returns w 1%nat _ example_url (VRef 4)
            (JObj [("attachments", JArr [])]) None eq_refl eq_refl eq_refl _).
  intros [|[|[|i]]] Hi; vm_compute; (done || lia).
Defined.

(** C6.  The payload has the top-level field [text] exactly when a
    title is given, and the field then holds the title. *)
Theorem C6_title_iff_provided w self url sup level message title tagged ids :
  is_notifier (w_heap w) self url sup ->
  recipients (w_heap w) tagged ids ->
  exists payload,
    built_payload
      (_generate_message_slack (VRef self) (VStr message) level
         (opt_str title) tagged) w = Ok payload /\
    field "text" payload = JStr <$> title /\
    (is_Some (field "text" payload) <-> is_Some title).
Proof.
  intros Hn Hrec. exists (payload_json message level title ids).
  split; [by apply (built_payload_generate w self url sup)|].
  destruct title as [t|]; simpl; (split; [done|]).
  - split; intros _; by eexists.
  - split; intros [? ?]; discriminate.
Qed.

Lemma C6_title_iff_provided_witness :
  exists payload,
    built_payload
      (_generate_message_slack (VRef 1) (VStr "Status: Working") NORMAL
         (opt_str (Some "Slackython")) VNone) (example_world []) = Ok payload /\
    field "text" payload = Some (JStr "Slackython") /\
    (is_Some (field "text" payload) <-> is_Some (Some "Slackython")).
Proof.
  apply (C6_title_iff_provided (example_world []) 1 example_url (VRef 0)
           NORMAL "Status: Working" (Some "Slackython") VNone []).
  - example_notifier.
  - by left.
Defined.

Lemma blocks_json_color message level ids b :
  b ∈ blocks_json message level ids ->
  field "color" b = Some (JStr (level_value level)).
Proof.
  unfold blocks_json. rewrite elem_of_cons, list_elem_of_In, in_map_iff.
  intros [->|(id & <- & _)]; done.
Qed.

Lemma payload_json_one_color message level title ids :
  one_color level (payload_json message level title ids).
Proof.
  exists (blocks_json message level ids).
  split; [done|]. apply blocks_json_color.
Qed.

(** C7.  Every block of the payload a call builds carries the colour
    of the level of that call, and different levels have different
    colours; this holds for the builder at every level and for what
    each of the three send operations posts. *)
Theorem C7_one_color w self url sup sups message title tagged ids :
  is_notifier (w_heap w) self url sup ->
  is_list (w_heap w) sup sups ->
  recipients (w_heap w) tagged ids ->
  (forall level, exists payload,
     built_payload
       (_generate_message_slack (VRef self) (VStr message) level
          (opt_str title) tagged) w = Ok payload /\
     one_color level payload) /\
  (exists payload,
     delivers (send_message (VRef self) (VStr message) (opt_str title) tagged)
       w url payload /\ one_color NORMAL payload) /\
  (exists payload,
     delivers
       (send_information (VRef self) (VStr message) (opt_str title) tagged)
       w url payload /\ one_color INFORMATION payload) /\
  (exists payload,
     delivers (send_error (VRef self) (VStr message) (opt_str title) tagged)
       w url payload /\ one_color CRITICAL payload) /\
  (forall level level',
     level_value level = level_value level' -> level = level').
Proof.
  intros Hn Hsup Hrec.
  destruct w as [h s lg net]; simpl in *.
  split; [|split; [|split; [|split]]].
  - intros level. exists (payload_json message level title ids).
    split; [|apply payload_json_one_color].
    by apply (built_payload_generate (World h s lg net) self url sup).
  - exists (payload_json message NORMAL title ids).
    split; [|apply payload_json_one_color].
    by apply send_message_delivers with sup.
  - exists (payload_json message INFORMATION title ids).
    split; [|apply payload_json_one_color].
    by apply send_information_delivers with sup.
  - destruct Hrec as [[-> _]|Hl].
    + exists (payload_json message CRITICAL title sups).
      split; [|apply payload_json_one_color].
      by apply send_error_delivers with sup.
    + exists (payload_json message CRITICAL title ids).
      split; [|apply payload_json_one_color].
      apply send_error_delivers with sup; [done|].
      destruct Hl as (l & -> & Hl). by exists l.
  - by intros [] [].
Qed.

Lemma C7_one_color_witness :
  exists payload,
    delivers (send_error (VRef 1) (VStr "disk full") (opt_str None) VNone)
      (example_world []) example_url payload /\ one_color CRITICAL payload.
Proof.
  apply (C7_one_color (example_world []) 1 example_url (VRef 0) ["U1"; "U2"]
           "disk full" None VNone []).
  - example_notifier.
  - example_list.
  - by left.
Defined.

Lemma grows_keeps call w self url sup :
  is_notifier (w_heap w) self url sup ->
  (exists t, w_heap (call w).2 = w_heap w ++ t) ->
  keeps_notifier call w self url sup.
Proof.
  intros Hn [t Ht]. unfold keeps_notifier. rewrite Ht.
  split; [intros l o; apply lookup_old|by apply is_notifier_grow].
Qed.

(** C8.  The builder and the three send operations write to no cell
    that existed before the call: the instance, its webhook, its
    supervisor list and its templates are afterwards what they were,
    whatever the arguments and whatever the outcome of the call, also
    when [send_error] reads the stored supervisor list. *)
Theorem C8_notifier_unchanged w self url sup message level title tagged :
  is_notifier (w_heap w) self url sup ->
  keeps_notifier
    (_generate_message_slack (VRef self) message level title tagged)
    w self url sup /\
  keeps_notifier (send_message (VRef self) message title tagged)
    w self url sup /\
  keeps_notifier (send_information (VRef self) message title tagged)
    w self url sup /\
  keeps_notifier (send_error (VRef self) message title tagged)
    w self url sup /\
  keeps_notifier (send_error (VRef self) message title VNone)
    w self url sup.
Proof.
  intros Hn. destruct w as [h s lg net].
  simpl in Hn.
  split; [|split; [|split; [|split]]]; (apply grows_keeps; [done|]); simpl.
  - by apply generate_grows with url sup.
  - by apply send_message_grows with url sup.
  - by apply send_information_grows with url sup.
  - by apply send_error_grows with url sup.
  - by apply send_error_grows with url sup.
Qed.

Lemma C8_notifier_unchanged_witness :
  keeps_notifier (send_error (VRef 1) (VStr "disk full") VNone VNone)
    (example_world []) 1 example_url (VRef 0).
Proof.
  apply (C8_notifier_unchanged (example_world []) 1 example_url (VRef 0)
           (VStr "disk full") CRITICAL VNone VNone).
  example_notifier.
Defined.

(** C9.  An absent recipient list and an empty one give the same run
    of the builder, the same cells and the same result, hence the same
    payload: the message block alone. *)
Theorem C9_none_is_empty w self url sup level message title l :
  is_notifier (w_heap w) self url sup ->
  w_heap w !! l = Some (OList []) ->
  _generate_message_slack (VRef self) (VStr message) level (opt_str title)
    VNone w
  = _generate_message_slack (VRef self) (VStr message) level (opt_str title)
      (VRef l) w /\
  built_payload
    (_generate_message_slack (VRef self) (VStr message) level (opt_str title)
       VNone) w
  = built_payload
      (_generate_message_slack (VRef self) (VStr message) level
         (opt_str title) (VRef l)) w /\
  exists payload,
    built_payload
      (_generate_message_slack (VRef self) (VStr message) level
         (opt_str title) (VRef l)) w = Ok payload /\
    field "attachments" payload
    = Some (JArr [JObj [("text", JStr message);
                        ("color", JStr (level_value level))]]).
Proof.
  intros Hn Hl.
  assert (recipients (w_heap w) VNone []) as Hnone by by left.
  assert (recipients (w_heap w) (VRef l) []) as Hempty
    by (right; by exists l).
  split; [|split].
  - destruct w as [h s lg net]; simpl in *.
    rewrite !(generate_ok h s lg net self url sup Hn _ _ _ _ []); done.
  - by rewrite !(built_payload_generate w self url sup message level title
                   _ []).
  - exists (payload_json message level title []). split; [|done].
    by apply (built_payload_generate w self url sup).
Qed.

Lemma C9_none_is_empty_witness :
  built_payload
    (_generate_message_slack (VRef 1) (VStr "ok") NORMAL (opt_str None)
       VNone) (example_world [])
  = built_payload
      (_generate_message_slack (VRef 1) (VStr "ok") NORMAL (opt_str None)
         (VRef 2)) (example_world []).
Proof.
  apply (C9_none_is_empty (example_world []) 1 example_url (VRef 0) NORMAL
           "ok" None 2).
  - example_notifier.
  - reflexivity.
Defined.

(** C10.  A notifier constructed without a supervisor list stores an
    empty list of its own, and [send_error] without recipients then
    posts a payload of exactly one block, the message block. *)
Theorem C10_no_supervisors w webhook message title :
  exists self supervisors w1,
    Slackython webhook VNone w = (Ok (VRef self), w1) /\
    getattr (VRef self) "slack_supervisors" w1 = (Ok (VRef supervisors), w1) /\
    w_heap w1 !! supervisors = Some (OList []) /\
    delivers (send_error (VRef self) (VStr message) (opt_str title) VNone)
      w1 webhook
      (JObj (("attachments",
              JArr [JObj [("text", JStr message); ("color", JStr "#d50000")]])
             :: match title with
                | Some t => [("text", JStr t)]
                | None => []
                end)).
Proof.
  destruct w as [h s lg net].
  pose proof (Slackython_notifier h webhook VNone) as Hn.
  assert ((h ++ notifier_cells (length h) webhook VNone)
            !! (length h + 1)%nat = Some (OList [])) as Hsup
    by by rewrite lookup_new.
  eexists (length h), (length h + 1)%nat, _.
  split; [apply Slackython_ok|].
  split; [|split; [done|]].
  - destruct Hn. by apply getattr_ok with attrs.
  - apply (send_error_delivers _ s lg net _ webhook _ Hn message title
             VNone []).
    by exists (length h + 1)%nat.
Qed.

(** * Further properties *)

(** ** The transport: log, foreign exceptions, unserialisable data *)

Section transport_effects.
Context (h : list obj) (net : list request -> post_result).
Context (self : loc) (attrs : list (string * value)) (url data : value)
        (body : json).
Hypothesis Hself : h !! self = Some (OInst attrs).
Hypothesis Hurl : dict_get "webhook_url" attrs = Some url.
Hypothesis Hbody : reify (S (length h)) h data = Ok body.

Local Abbreviation req := (Request url body json_headers).

(** One turn of the loop, with what it logs. *)
Lemma attempt_logs s lg :
  attempt (VRef self) data (World h s lg net)
  = (verdict (net (s ++ [req])),
     World h (s ++ [req]) (lg ++ records (net (s ++ [req]))) net).
Proof.
  unfold attempt, try_except.
  rewrite (bind_ok _ _ _ _ _ (getattr_ok _ _ _ _ _ _ _ _ Hself Hurl)).
  unfold bind at 1. unfold json_dumps at 1. cbn [w_heap]. rewrite Hbody.
  unfold bind, requests_post, logger_info, logger_error, logger_error_exn,
    log, ret; cbn [w_heap w_sent w_log w_net].
  fold json_headers.
  destruct (net (s ++ [req])) as [c|e]; cbn [verdict records].
  - by destruct (c =? 200)%Z.
  - destruct e; rewrite ?app_nil_r, <- ?app_assoc; done.
Qed.

Lemma trace_S s lg lg' k :
  trace (World h s lg net) req (S k)
  = records (net (s ++ [req])) ++ trace (World h (s ++ [req]) lg' net) req k.
Proof.
  unfold trace. cbn [seq map concat]. f_equal.
  rewrite <- seq_shift, map_map. f_equal. apply map_ext. intros i.
  by rewrite (outcome_shift h net url body s lg lg').
Qed.

(** Whatever the remote side does, the requests of the loop are copies
    of one request, and the log grows by the records of their
    outcomes, in order. *)
Lemma attempts_effect n : forall s lg,
  exists r k,
    (k <= n)%nat /\ ((0 < n)%nat -> (0 < k)%nat) /\
    attempts (VRef self) data n (World h s lg net)
    = (r, World h (s ++ repeat req k)
                (lg ++ trace (World h s lg net) req k) net).
Proof.
  induction n as [|n IH]; intros s lg.
  - exists (Ok tt), 0%nat. unfold trace; simpl. rewrite !app_nil_r.
    repeat split; lia.
  - cbn [attempts]. unfold bind at 1. rewrite attempt_logs.
    set (lg1 := lg ++ records (net (s ++ [req]))).
    assert (forall B (r : res B),
      (r, World h (s ++ [req]) lg1 net)
      = (r, World h (s ++ repeat req 1)
                  (lg ++ trace (World h s lg net) req 1) net)) as Hone.
    { intros B r. subst lg1. unfold trace, outcome; simpl.
      by rewrite app_nil_r. }
    destruct (verdict (net (s ++ [req]))) as [[|]| |].
    + exists (Ok tt), 1%nat. rewrite <- Hone. repeat split; lia.
    + destruct (IH (s ++ [req]) lg1) as (r & k & Hk & _ & Hrest).
      exists r, (S k). rewrite Hrest, <- app_assoc.
      rewrite (trace_S s lg lg1). subst lg1. rewrite <- app_assoc.
      repeat split; lia.
    + exists (Raise e), 1%nat. rewrite <- Hone. repeat split; lia.
    + exists Stuck, 1%nat. rewrite <- Hone. repeat split; lia.
Qed.

(** An exception that no [except] clause catches ends the loop at
    once. *)
Lemma attempts_escape k : forall n s lg e,
  (k < n)%nat ->
  (forall i, (i < k)%nat -> retried (outcome (World h s lg net) req i)) ->
  outcome (World h s lg net) req k = Fails e ->
  caught e = false ->
  exists lg',
    attempts (VRef self) data n (World h s lg net)
    = (Raise e, World h (s ++ repeat req (S k)) lg' net).
Proof.
  induction k as [|k IH]; intros [|n] s lg e Hk Hretried Hfails He; try lia.
  - exists (lg ++ records (net (s ++ [req]))).
    cbn [attempts]. unfold bind. rewrite attempt_logs.
    change (net (s ++ [req])) with (outcome (World h s lg net) req 0).
    rewrite Hfails. by destruct e.
  - pose proof (attempt_logs s lg) as Hstep.
    change (net (s ++ [req])) with (outcome (World h s lg net) req 0)
      in Hstep.
    rewrite (retried_verdict _ (Hretried 0%nat ltac:(lia))) in Hstep.
    destruct (IH n (s ++ [req])
                (lg ++ records (outcome (World h s lg net) req 0)) e)
      as [lg' Hrest]; [lia| | |done|].
    + intros i Hi. rewrite (outcome_shift h net url body s lg).
      apply Hretried. lia.
    + by rewrite (outcome_shift h net url body s lg).
    + exists lg'. cbn [attempts]. rewrite (bind_ok _ _ _ _ _ Hstep).
      rewrite Hrest. by rewrite <- app_assoc.
Qed.

Lemma repeat_app_inj (s : list request) r j k :
  s ++ repeat r j = s ++ repeat r k -> j = k.
Proof.
  intros H. apply (f_equal length) in H.
  rewrite !length_app, !repeat_length in H. lia.
Qed.

(** The log of a run that uses its whole budget in vain. *)
Lemma attempts_exhaust_log n s lg :
  (forall i, (i < n)%nat -> retried (outcome (World h s lg net) req i)) ->
  attempts (VRef self) data n (World h s lg net)
  = (Ok tt, World h (s ++ repeat req n)
                (lg ++ trace (World h s lg net) req n) net).
Proof.
  intros Hretried.
  destruct (attempts_exhaust h net self attrs url data body Hself Hurl Hbody
              n s lg Hretried) as (lg' & Hrun).
  destruct (attempts_effect n s lg) as (r & k & _ & _ & Hrun').
  rewrite Hrun in Hrun' |- *. injection Hrun' as _ Hs ->.
  by rewrite (repeat_app_inj _ _ _ _ Hs).
Qed.

(** The log of a run that ends with a 200. *)
Lemma attempts_first_200_log k n s lg :
  (k < n)%nat ->
  (forall i, (i < k)%nat -> retried (outcome (World h s lg net) req i)) ->
  outcome (World h s lg net) req k = Responds 200 ->
  attempts (VRef self) data n (World h s lg net)
  = (Ok tt, World h (s ++ repeat req (S k))
                (lg ++ trace (World h s lg net) req (S k)) net).
Proof.
  intros Hk Hretried H200.
  destruct (attempts_first_200 h net self attrs url data body Hself Hurl
              Hbody k n s lg Hk Hretried H200) as (lg' & Hrun).
  destruct (attempts_effect n s lg) as (r & k' & _ & _ & Hrun').
  rewrite Hrun in Hrun' |- *. injection Hrun' as _ Hs ->.
  by rewrite (repeat_app_inj s req (S k) k' Hs).
Qed.
End transport_effects.

Lemma res_mapM_raise {A B} (f : A -> res B) l e :
  res_mapM f l = Raise e -> exists x, f x = Raise e.
Proof.
  induction l as [|x l IH]; simpl; [done|].
  destruct (f x) as [y|e'|] eqn:Hx; simpl; try done.
  - destruct (res_mapM f l) as [ys|e'|]; simpl; try discriminate.
    intros [= ->]. by apply IH.
  - intros [= ->]. by exists x.
Qed.

(** [json.dumps] raises nothing but [TypeError] and [ValueError]. *)
Lemma reify_raises h e : forall fuel x,
  reify fuel h x = Raise e -> e = TypeError \/ e = ValueError.
Proof.
  induction fuel as [|fuel IH]; intros x; simpl.
  { intros [= <-]. by right. }
  destruct x as [|text|l]; try done.
  destruct (h !! l) as [[items|d|d]|]; try done.
  - destruct (res_mapM (reify fuel h) items) as [js|e'|] eqn:Hjs; try done.
    simpl. intros [= ->].
    destruct (res_mapM_raise _ _ _ Hjs) as [x Hx]. by apply (IH x).
  - destruct (res_mapM _ d) as [ms|e'|] eqn:Hms; try done.
    simpl. intros [= ->].
    destruct (res_mapM_raise _ _ _ Hms) as [[k v] Hkv]. simpl in Hkv.
    destruct (reify fuel h v) as [j|e'|] eqn:Hv; try done.
    simpl in Hkv. injection Hkv as ->. by apply (IH v).
  - intros [= <-]. by left.
Qed.

(** X1.  The transport's whole effect: with the webhook stored and the
    data serialisable, a call performs between one and n requests when
    its budget n is positive and none otherwise, every one of them
    the same POST of the same body to the stored webhook with the one
    header; it leaves the store alone; and it adds to the log the
    records of the outcomes of these requests, in order, and nothing
    else. *)
Theorem X1_transport_effect w l attrs url data body retries :
  w_heap w !! l = Some (OInst attrs) ->
  dict_get "webhook_url" attrs = Some url ->
  (json_dumps data w).1 = Ok body ->
  let n := Z.to_nat (default 3 retries) in
  let req := Request url body [("Content-Type", "application/json")] in
  exists r k,
    (k <= n)%nat /\ ((0 < n)%nat -> (0 < k)%nat) /\
    _send_to_webhook (VRef l) data retries w
    = (r, World (w_heap w) (w_sent w ++ repeat req k)
                (w_log w ++ trace w req k) (w_net w)).
Proof.
  intros Hself Hurl Hbody n req.
  destruct w as [h s lg net]; simpl in *.
  destruct (attempts_effect h net l attrs url data body Hself Hurl Hbody
              n s lg) as (r & k & Hk & Hpos & Hrun).
  exists (res_bind r (fun _ => Ok VNone)), k.
  rewrite send_to_webhook_run. fold n. by rewrite Hrun.
Qed.

Lemma X1_transport_effect_witness :
  let w := example_world [Fails RequestException; Responds 200] in
  let req := Request example_url (JObj [("attachments", JArr [])])
               [("Content-Type", "application/json")] in
  exists r k,
    (k <= 3)%nat /\ ((0 < 3)%nat -> (0 < k)%nat) /\
    _send_to_webhook (VRef 1) (VRef 4) None w
    = (r, World (w_heap w) (w_sent w ++ repeat req k)
                (w_log w ++ trace w req k) (w_net w)).
Proof.
  intros w req.
  exact (X1_transport_effect w 1%nat _ example_url (VRef 4)
           (JObj [("attachments", JArr [])]) None eq_refl eq_refl eq_refl).
Defined.

(** X2.  An exception of [requests.post] that is neither a timeout,
    nor too many redirects, nor another [RequestException] is not
    caught: it ends the loop at the request that raised it, whatever
    budget is left, and reaches the caller. *)
Theorem X2_foreign_exception_escapes w l attrs url data body retries k e :
  w_heap w !! l = Some (OInst attrs) ->
  dict_get "webhook_url" attrs = Some url ->
  (json_dumps data w).1 = Ok body ->
  let n := Z.to_nat (default 3 retries) in
  let req := Request url body json_headers in
  (k < n)%nat ->
  (forall i, (i < k)%nat -> retried (outcome w req i)) ->
  outcome w req k = Fails e ->
  caught e = false ->
  exists lg',
    _send_to_webhook (VRef l) data retries w
    = (Raise e, World (w_heap w) (w_sent w ++ repeat req (S k)) lg' (w_net w)).
Proof.
  intros Hself Hurl Hbody n req Hk Hretried Hfails He.
  destruct w as [h s lg net]; simpl in *.
  destruct (attempts_escape h net l attrs url data body Hself Hurl Hbody
              k n s lg e Hk Hretried Hfails He) as (lg' & Hrun).
  exists lg'. rewrite send_to_webhook_run. fold n. by rewrite Hrun.
Qed.

Lemma X2_foreign_exception_escapes_witness :
  let w := example_world [Responds 500; Fails OtherError; Responds 200] in
  let req := Request example_url (JObj [("attachments", JArr [])])
               json_headers in
  exists lg',
    _send_to_webhook (VRef 1) (VRef 4) None w
    = (Raise OtherError,
       World (w_heap w) (w_sent w ++ repeat req 2) lg' (w_net w)).
Proof.
  intros w req.
  refine (X2_foreign_exception_escapes w 1%nat _ example_url (VRef 4)
            (JObj [("attachments", JArr [])]) None 1%nat OtherError
            eq_refl eq_refl eq_refl _ _ eq_refl eq_refl).
  - vm_compute. lia.
  - intros [|i] Hi; vm_compute; (done || lia).
Defined.

(** X3.  Data that [json.dumps] refuses (an instance inside it, a
    circular reference) makes the transport raise the error of
    [json.dumps] before any request is made and before anything is
    logged: serialisation happens inside the [try], but no [except]
    clause catches its errors. *)
Theorem X3_unserialisable_data_raises w l attrs url data
    (retries : option Z) e :
  w_heap w !! l = Some (OInst attrs) ->
  dict_get "webhook_url" attrs = Some url ->
  (json_dumps data w).1 = Raise e ->
  (0 < Z.to_nat (default 3%Z retries))%nat ->
  _send_to_webhook (VRef l) data retries w = (Raise e, w).
Proof.
  intros Hself Hurl Hraise Hpos.
  destruct w as [h s lg net].
  change (reify (S (length h)) h data = Raise e) in Hraise.
  cbn [w_heap] in Hself.
  assert (attempt (VRef l) data (World h s lg net)
          = (Raise e, World h s lg net)) as Hstep.
  { unfold attempt, try_except.
    rewrite (bind_ok _ _ _ _ _ (getattr_ok _ _ _ _ _ _ _ _ Hself Hurl)).
    unfold bind at 1. unfold json_dumps at 1. cbn [w_heap]. rewrite Hraise.
    by destruct (reify_raises _ _ _ _ Hraise) as [-> | ->]. }
  rewrite send_to_webhook_run.
  destruct (Z.to_nat (default 3 retries)) as [|n]; [lia|].
  cbn [attempts]. unfold bind. by rewrite Hstep.
Qed.

Lemma X3_unserialisable_data_raises_witness :
  _send_to_webhook (VRef 1) (VRef 1) None (example_world [])
  = (Raise TypeError, example_world []).
Proof.
  refine (X3_unserialisable_data_raises (example_world []) 1%nat _
            example_url (VRef 1) None TypeError eq_refl eq_refl eq_refl _).
  vm_compute. lia.
Defined.

(** ** The send operations, end to end *)

Section send_runs.
Context (h : list obj) (s : list request) (lg : list log_record)
        (net : list request -> post_result).
Context (self : loc) (url sup : value).
Hypothesis Hnotifier : is_notifier h self url sup.

(** A send operation builds its payload, logs one line, and hands the
    payload to the transport with the default budget. *)
Lemma send_at_run level message title tagged ids :
  recipients h (effective level sup tagged) ids ->
  send_at level (VRef self) (VStr message) (opt_str title) tagged
    (World h s lg net)
  = (_send_to_webhook (VRef self) (VRef (length h)) None ;; ret VNone)
      (World (h ++ payload_cells (length h) (opt_str title)
                     (blocks (VStr message) level ids))
             s (lg ++ [LogInfo (sending level message)]) net).
Proof.
  intros Hrec.
  pose proof (fun tagged' Hr => generate_ok h s lg net self url sup Hnotifier
                (VStr message) level (opt_str title) tagged' ids Hr) as Hgen.
  destruct level; cbn [send_at effective sending] in *.
  - unfold send_message.
    by rewrite (bind_ok _ _ _ _ _ (Hgen _ Hrec)).
  - unfold send_information.
    by rewrite (bind_ok _ _ _ _ _ (Hgen _ Hrec)).
  - unfold send_error.
    rewrite (bind_ok _ _ _ _ _
               (send_error_list h s lg net self url sup Hnotifier tagged)).
    by rewrite (bind_ok _ _ _ _ _ (Hgen _ Hrec)).
Qed.

Lemma send_at_attempts level message title tagged ids :
  recipients h (effective level sup tagged) ids ->
  let h' := h ++ payload_cells (length h) (opt_str title)
                   (blocks (VStr message) level ids) in
  let run := attempts (VRef self) (VRef (length h)) 3
               (World h' s (lg ++ [LogInfo (sending level message)]) net) in
  send_at level (VRef self) (VStr message) (opt_str title) tagged
    (World h s lg net)
  = (res_bind run.1 (fun _ => Ok VNone), run.2).
Proof.
  intros Hrec h' run. rewrite (send_at_run _ _ _ _ _ Hrec).
  fold h'. unfold bind at 1. rewrite send_to_webhook_run.
  change (Z.to_nat (default 3 None)) with 3%nat. fold run.
  by destruct run.1.
Qed.

Lemma send_at_exhaust level message title tagged ids :
  recipients h (effective level sup tagged) ids ->
  (forall i, (i < 3)%nat ->
     retried (outcome (World h s lg net)
                (Request url (payload_json message level title ids)
                   json_headers) i)) ->
  send_at level (VRef self) (VStr message) (opt_str title) tagged
    (World h s lg net)
  = (Ok VNone, after_send (World h s lg net) url level message title ids 3).
Proof.
  intros Hrec Hretried.
  rewrite (send_at_attempts _ _ _ _ _ Hrec).
  destruct (is_notifier_grow h
    (payload_cells (length h) (opt_str title)
       (blocks (VStr message) level ids)) _ _ _ Hnotifier).
  rewrite (attempts_exhaust_log _ net self attrs url (VRef (length h))
             (payload_json message level title ids) Hself Hurl
             (reify_payload h message level title ids) 3 s _ Hretried).
  unfold after_send. cbn [fst snd res_bind]. by rewrite <- app_assoc.
Qed.

Lemma send_at_success level message title tagged ids k :
  recipients h (effective level sup tagged) ids ->
  (k < 3)%nat ->
  (forall i, (i < k)%nat ->
     retried (outcome (World h s lg net)
                (Request url (payload_json message level title ids)
                   json_headers) i)) ->
  outcome (World h s lg net)
    (Request url (payload_json message level title ids) json_headers) k
  = Responds 200 ->
  send_at level (VRef self) (VStr message) (opt_str title) tagged
    (World h s lg net)
  = (Ok VNone,
     after_send (World h s lg net) url level message title ids (S k)).
Proof.
  intros Hrec Hk Hretried H200.
  rewrite (send_at_attempts _ _ _ _ _ Hrec).
  destruct (is_notifier_grow h
    (payload_cells (length h) (opt_str title)
       (blocks (VStr message) level ids)) _ _ _ Hnotifier).
  rewrite (attempts_first_200_log _ net self attrs url (VRef (length h))
             (payload_json message level title ids) Hself Hurl
             (reify_payload h message level title ids) k 3 s _ Hk Hretried
             H200).
  unfold after_send. cbn [fst snd res_bind]. by rewrite <- app_assoc.
Qed.
End send_runs.

(** X4.  A send operation never raises over a failing delivery: when
    the three requests of the default budget all fail with a timeout,
    too many redirects or another [RequestException], or are answered
    with a status other than 200, the operation returns [None].  It
    has then built the payload in new cells, posted it three times,
    and logged its own line followed by the records of the three
    outcomes. *)
Theorem X4_send_survives_failures w self url sup level message title tagged
    ids :
  is_notifier (w_heap w) self url sup ->
  recipients (w_heap w) (effective level sup tagged) ids ->
  (forall i, (i < 3)%nat ->
     retried (outcome w (Request url (payload_json message level title ids)
                           json_headers) i)) ->
  send_at level (VRef self) (VStr message) (opt_str title) tagged w
  = (Ok VNone, after_send w url level message title ids 3).
Proof.
  destruct w as [h s lg net]. intros Hn Hrec Hretried.
  by apply send_at_exhaust with sup.
Qed.

Lemma X4_send_survives_failures_witness :
  let w := example_world [Fails Timeout; Responds 404;
                          Fails RequestException] in
  send_at CRITICAL (VRef 1) (VStr "disk full") (opt_str None) VNone w
  = (Ok VNone, after_send w example_url CRITICAL "disk full" None
                 ["U1"; "U2"] 3).
Proof.
  intros w.
  refine (X4_send_survives_failures w 1 example_url (VRef 0) CRITICAL
            "disk full" None VNone ["U1"; "U2"] _ _ _).
  - example_notifier.
  - right. example_list.
  - intros [|[|[|i]]] Hi; vm_compute; (done || lia).
Defined.

(** X5.  When the request number k+1 of a send operation is the first
    one answered with 200, the earlier ones having failed in a way the
    transport retries, the operation returns [None] after exactly k+1
    requests, and its last log record is the success record. *)
Theorem X5_send_stops_at_success w self url sup level message title tagged
    ids k :
  is_notifier (w_heap w) self url sup ->
  recipients (w_heap w) (effective level sup tagged) ids ->
  let req := Request url (payload_json message level title ids)
               json_headers in
  (k < 3)%nat ->
  (forall i, (i < k)%nat -> retried (outcome w req i)) ->
  outcome w req k = Responds 200 ->
  send_at level (VRef self) (VStr message) (opt_str title) tagged w
  = (Ok VNone, after_send w url level message title ids (S k)) /\
  last (w_log (after_send w url level message title ids (S k)))
  = Some (LogInfo "Success response").
Proof.
  destruct w as [h s lg net]. intros Hn Hrec req Hk Hretried H200.
  split; [by apply send_at_success with sup|].
  unfold after_send, trace. cbn [w_log].
  rewrite seq_S, map_app, concat_app. cbn [map concat Nat.add].
  fold req. rewrite H200. cbn [records Z.eqb Pos.eqb].
  rewrite app_nil_r.
  change (lg ++ ?a :: ?t ++ [?x]) with (lg ++ (a :: t) ++ [x]).
  by rewrite !app_assoc, last_snoc.
Qed.

Lemma X5_send_stops_at_success_witness :
  let w := example_world [Responds 502; Responds 200] in
  send_at NORMAL (VRef 1) (VStr "Status: Working") (opt_str (Some "Slackython"))
    VNone w
  = (Ok VNone, after_send w example_url NORMAL "Status: Working"
                 (Some "Slackython") [] 2).
Proof.
  intros w.
  refine (proj1 (X5_send_stops_at_success w 1 example_url (VRef 0) NORMAL
                   "Status: Working" (Some "Slackython") VNone [] 1 _ _ _ _ _)).
  - example_notifier.
  - by left.
  - lia.
  - intros [|i] Hi; vm_compute; (done || lia).
  - reflexivity.
Defined.

(** X6.  Only [send_error] falls back on the stored supervisors:
    whatever list the notifier stores, [send_message] and
    [send_information] without recipients post the message block
    alone. *)
Theorem X6_only_errors_tag_supervisors w self url sup message title :
  is_notifier (w_heap w) self url sup ->
  let payload color :=
    JObj (("attachments",
           JArr [JObj [("text", JStr message); ("color", JStr color)]])
          :: match title with
             | Some t => [("text", JStr t)]
             | None => []
             end) in
  delivers (send_message (VRef self) (VStr message) (opt_str title) VNone)
    w url (payload "#00C853") /\
  delivers (send_information (VRef self) (VStr message) (opt_str title) VNone)
    w url (payload "#FFD600").
Proof.
  intros Hn payload. destruct w as [h s lg net]; simpl in Hn.
  split.
  - apply (send_message_delivers h s lg net self url sup Hn message title
             VNone []). by left.
  - apply (send_information_delivers h s lg net self url sup Hn message title
             VNone []). by left.
Qed.

Lemma X6_only_errors_tag_supervisors_witness :
  delivers (send_message (VRef 1) (VStr "ok") (opt_str None) VNone)
    (example_world []) example_url
    (JObj [("attachments",
            JArr [JObj [("text", JStr "ok"); ("color", JStr "#00C853")]])]).
Proof.
  refine (proj1 (X6_only_errors_tag_supervisors (example_world []) 1
                   example_url (VRef 0) "ok" None _)).
  example_notifier.
Defined.

(** ** The builder: odd recipients, independent payloads *)






(** A document stays what it is when the store grows. *)
Lemma reify_grow h t : forall fuel x j,
  reify fuel h x = Ok j -> reify fuel (h ++ t) x = Ok j.
Proof.
  induction fuel as [|fuel IH]; intros x j; [done|].
  destruct x as [|text|l]; try done.
  rewrite !reify_ref.
  destruct (h !! l) as [o|] eqn:Hl; [|done].
  rewrite (lookup_old _ t _ _ Hl).
  destruct o as [items|d|d]; try done.
  - destruct (res_mapM (reify fuel h) items) as [js| |] eqn:Hjs; try done.
    by rewrite (res_mapM_ok_ext _ (reify fuel (h ++ t)) _ _ IH Hjs).
  - destruct (res_mapM _ d) as [ms| |] eqn:Hms; try done.
    intros H. erewrite res_mapM_ok_ext; [exact H| |exact Hms].
    intros [k v] y. cbn [fst snd].
    destruct (reify fuel h v) eqn:Hv; try done.
    by rewrite (IH _ _ Hv).
Qed.

Lemma recipients_grow h t tagged ids :
  recipients h tagged ids -> recipients (h ++ t) tagged ids.
Proof.
  intros [?|(l & -> & Hl)]; [by left|right].
  exists l. eauto using lookup_old.
Qed.

(** X8.  Two payloads built one after the other are independent: the
    second build leaves the first payload as it was, so that each of
    the two serialises to its own message, title and recipients. *)
Theorem X8_payloads_independent w self url sup
    level1 message1 title1 tagged1 ids1
    level2 message2 title2 tagged2 ids2 :
  is_notifier (w_heap w) self url sup ->
  recipients (w_heap w) tagged1 ids1 ->
  recipients (w_heap w) tagged2 ids2 ->
  ((let* data1 :=
      _generate_message_slack (VRef self) (VStr message1) level1
        (opt_str title1) tagged1 in
    let* data2 :=
      _generate_message_slack (VRef self) (VStr message2) level2
        (opt_str title2) tagged2 in
    let* body1 := json_dumps data1 in
    let* body2 := json_dumps data2 in
    ret (body1, body2)) w).1
  = Ok (payload_json message1 level1 title1 ids1,
        payload_json message2 level2 title2 ids2).
Proof.
  destruct w as [h s lg net]; simpl. intros Hn Hrec1 Hrec2.
  rewrite (bind_ok _ _ _ _ _
             (generate_ok h s lg net self url sup Hn _ _ _ _ _ Hrec1)).
  set (h1 := h ++ payload_cells _ _ _).
  rewrite (bind_ok _ _ _ _ _
             (generate_ok h1 s lg net self url sup
                (is_notifier_grow _ _ _ _ _ Hn) _ _ _ _ _
                (recipients_grow _ _ _ _ Hrec2))).
  set (h2 := h1 ++ payload_cells _ _ _).
  assert (reify (S (length h2)) h2 (VRef (length h))
          = Ok (payload_json message1 level1 title1 ids1)) as H1.
  { apply (reify_le (S (length h1))).
    { subst h2. rewrite length_app. lia. }
    apply reify_grow, reify_payload. }
  pose proof (reify_payload h1 message2 level2 title2 ids2) as H2.
  cbn zeta in H2. fold h2 in H2.
  unfold bind, json_dumps, ret; cbn [w_heap fst]. by rewrite H1, H2.
Qed.

Lemma X8_payloads_independent_witness :
  ((let* data1 :=
      _generate_message_slack (VRef 1) (VStr "first") NORMAL
        (opt_str (Some "One")) VNone in
    let* data2 :=
      _generate_message_slack (VRef 1) (VStr "second") CRITICAL
        (opt_str None) (VRef 0) in
    let* body1 := json_dumps data1 in
    let* body2 := json_dumps data2 in
    ret (body1, body2)) (example_world [])).1
  = Ok (payload_json "first" NORMAL (Some "One") [],
        payload_json "second" CRITICAL None ["U1"; "U2"]).
Proof.
  refine (X8_payloads_independent (example_world []) 1 example_url (VRef 0)
            NORMAL "first" (Some "One") VNone []
            CRITICAL "second" None (VRef 0) ["U1"; "U2"] _ _ _).
  - example_notifier.
  - by left.
  - right. example_list.
Defined.

(** X9.  A payload shares nothing with the templates it was copied
    from: when the caller appends to the attachments of a payload it
    got from the builder and sets its title, the next payload is
    still built from empty templates. *)
Theorem X9_payload_shares_nothing w self url sup
    level1 message1 title1 tagged1 ids1 x v
    level2 message2 title2 tagged2 ids2 :
  is_notifier (w_heap w) self url sup ->
  recipients (w_heap w) tagged1 ids1 ->
  recipients (w_heap w) tagged2 ids2 ->
  ((let* data1 :=
      _generate_message_slack (VRef self) message1 level1 title1 tagged1 in
    (let* attachments := getitem data1 "attachments" in
     list_append attachments x) ;;
    setitem data1 "text" v ;;
    let* data2 :=
      _generate_message_slack (VRef self) (VStr message2) level2
        (opt_str title2) tagged2 in
    json_dumps data2) w).1
  = Ok (payload_json message2 level2 title2 ids2).
Proof.
  destruct w as [h s lg net]; simpl. intros Hn Hrec1 Hrec2.
  rewrite (bind_ok _ _ _ _ _
             (generate_ok h s lg net self url sup Hn _ _ _ _ _ Hrec1)).
  unfold payload_cells.
  rewrite (bind_ok _ _ _ _ _
             (append_block_ok h s lg net
                (("attachments", VRef (S (length h))) :: title_entry title1)
                _ _ x eq_refl)).
  rewrite (bind_ok _ _ _ _ _
             (setitem_ok _ _ _ _ _ _ _ _ (lookup_at_length _ _ _))).
  rewrite insert_at_length.
  set (h1 := h ++ _).
  pose proof (built_payload_generate (World h1 s lg net) self url sup
                message2 level2 title2 tagged2 ids2
                (is_notifier_grow _ _ _ _ _ Hn)
                (recipients_grow _ _ _ _ Hrec2)) as Hbuilt.
  exact Hbuilt.
Qed.

Lemma X9_payload_shares_nothing_witness :
  ((let* data1 :=
      _generate_message_slack (VRef 1) (VStr "first") NORMAL VNone (VRef 0) in
    (let* attachments := getitem data1 "attachments" in
     list_append attachments (VStr "extra")) ;;
    setitem data1 "text" (VStr "Changed") ;;
    let* data2 :=
      _generate_message_slack (VRef 1) (VStr "second") INFORMATION
        (opt_str None) VNone in
    json_dumps data2) (example_world [])).1
  = Ok (payload_json "second" INFORMATION None []).
Proof.
  refine (X9_payload_shares_nothing (example_world []) 1 example_url (VRef 0)
            NORMAL (VStr "first") VNone (VRef 0) ["U1"; "U2"]
            (VStr "extra") (VStr "Changed")
            INFORMATION "second" None VNone [] _ _ _).
  - example_notifier.
  - right. example_list.
  - by left.
Defined.

Lemma send_at_grows h s lg net self url sup level message title tagged :
  is_notifier h self url sup ->
  exists t,
    w_heap (send_at level (VRef self) message title tagged
              (World h s lg net)).2 = h ++ t.
Proof.
  intros Hn. destruct level; cbn [send_at].
  - by apply send_message_grows with url sup.
  - by apply send_information_grows with url sup.
  - by apply send_error_grows with url sup.
Qed.

(** X10.  What the builder builds does not depend on the sends made
    before: after any of the three send operations, with any
    arguments and whatever its outcome, the same call of the builder
    yields the payload it would have yielded before. *)
Theorem X10_sends_leave_no_trace w self url sup level message title tagged ids
    level0 message0 title0 tagged0 :
  is_notifier (w_heap w) self url sup ->
  recipients (w_heap w) tagged ids ->
  let build :=
    _generate_message_slack (VRef self) (VStr message) level (opt_str title)
      tagged in
  let w' := (send_at level0 (VRef self) message0 title0 tagged0 w).2 in
  built_payload build w' = built_payload build w /\
  built_payload build w' = Ok (payload_json message level title ids).
Proof.
  intros Hn Hrec build w'.
  assert (built_payload build w' = Ok (payload_json message level title ids))
    as Hafter.
  { destruct w as [h s lg net]; simpl in *.
    destruct (send_at_grows h s lg net self url sup level0 message0 title0
                tagged0 Hn) as [t Ht].
    apply (built_payload_generate w' self url sup); subst w'; rewrite Ht.
    - by apply is_notifier_grow.
    - by apply recipients_grow. }
  split; [|done]. rewrite Hafter. symmetry.
  by apply (built_payload_generate w self url sup).
Qed.

Lemma X10_sends_leave_no_trace_witness :
  let build :=
    _generate_message_slack (VRef 1) (VStr "ok") NORMAL (opt_str None)
      (VRef 0) in
  let w := example_world [Fails OtherError] in
  let w' := (send_at CRITICAL (VRef 1) (VStr "disk full") (VStr "Alert")
               VNone w).2 in
  built_payload build w' = built_payload build w.
Proof.
  intros build w w'.
  refine (proj1 (X10_sends_leave_no_trace w 1 example_url (VRef 0) NORMAL "ok"
                   None (VRef 0) ["U1"; "U2"] CRITICAL (VStr "disk full")
                   (VStr "Alert") VNone _ _)).
  - example_notifier.
  - right. example_list.
Defined.

(** ** The constructor: whose list the supervisors are *)

(** X11.  The constructor stores the supervisor list it is given, not
    a copy of it: a supervisor the caller appends to that list after
    the notifier was constructed is mentioned by the next
    [send_error], after the supervisors that were there before. *)
Theorem X11_supervisors_are_the_callers_list w l ids webhook id message title :
  w_heap w !! l = Some (OList (map VStr ids)) ->
  exists self w1 w2,
    Slackython webhook (VRef l) w = (Ok (VRef self), w1) /\
    getattr (VRef self) "slack_supervisors" w1 = (Ok (VRef l), w1) /\
    list_append (VRef l) (VStr id) w1 = (Ok tt, w2) /\
    delivers (send_error (VRef self) (VStr message) (opt_str title) VNone)
      w1 webhook (payload_json message CRITICAL title ids) /\
    delivers (send_error (VRef self) (VStr message) (opt_str title) VNone)
      w2 webhook (payload_json message CRITICAL title (ids ++ [id])).
Proof.
  destruct w as [h s lg net]; simpl. intros Hl.
  pose proof (Slackython_notifier h webhook (VRef l)) as Hn1.
  set (h' := <[l := OList (map VStr ids ++ [VStr id])]> h).
  assert (length h' = length h) as Hlen by apply length_insert.
  pose proof (Slackython_notifier h' webhook (VRef l)) as Hn2.
  rewrite Hlen in Hn2.
  eexists (length h), _, _.
  split; [apply Slackython_ok|].
  split; [destruct Hn1; by apply getattr_ok with attrs|].
  split; [apply list_append_ok; by apply lookup_old|].
  split.
  - apply (send_error_delivers _ s lg net _ webhook _ Hn1 message title
             VNone ids).
    exists l. split; [done|by apply lookup_old].
  - rewrite insert_app_l by (by apply lookup_lt_Some in Hl). fold h'.
    apply (send_error_delivers _ s lg net _ webhook _ Hn2 message title
             VNone (ids ++ [id])).
    exists l. split; [done|]. apply lookup_old. subst h'.
    rewrite list_lookup_insert_eq by (by apply lookup_lt_Some in Hl).
    by rewrite map_app.
Qed.

Lemma X11_supervisors_are_the_callers_list_witness :
  exists self w1 w2,
    Slackython example_url (VRef 0) (example_world []) = (Ok (VRef self), w1) /\
    getattr (VRef self) "slack_supervisors" w1 = (Ok (VRef 0), w1) /\
    list_append (VRef 0) (VStr "U3") w1 = (Ok tt, w2) /\
    delivers (send_error (VRef self) (VStr "disk full") (opt_str None) VNone)
      w1 example_url (payload_json "disk full" CRITICAL None ["U1"; "U2"]) /\
    delivers (send_error (VRef self) (VStr "disk full") (opt_str None) VNone)
      w2 example_url
      (payload_json "disk full" CRITICAL None (["U1"; "U2"] ++ ["U3"])).
Proof.
  exact (X11_supervisors_are_the_callers_list (example_world []) 0
           ["U1"; "U2"] example_url "U3" "disk full" None eq_refl).
Defined.

Lemma notifier_after_append h webhook items :
  is_notifier
    (<[(length h + 1)%nat := OList items]>
       (h ++ notifier_cells (length h) webhook VNone))
    (length h) webhook (VRef (length h + 1)).
Proof.
  assert (length (notifier_cells (length h) webhook VNone) = 5%nat) as Hc
    by done.
  apply (IsNotifier _ _ _ _
           [("webhook_url", webhook);
            ("slack_supervisors", VRef (length h + 1));
            ("base_template", VRef (length h + 3));
            ("attachment_template", VRef (length h + 4))]
           (length h + 3)%nat (length h + 2)%nat (length h + 4)%nat);
    try done.
  all: rewrite list_lookup_insert_ne by lia.
  - apply lookup_at_length.
  - by rewrite lookup_new.
  - by rewrite lookup_new.
  - by rewrite lookup_new.
Qed.

(** X12.  Notifiers constructed without a supervisor list do not share
    one: each gets a new empty list, so a supervisor appended to the
    list of one notifier is mentioned by its [send_error] and not by
    the [send_error] of the other. *)
Theorem X12_default_lists_are_separate w webhook1 webhook2 id message title :
  exists a b supervisors w2 w3,
    (let* a := Slackython webhook1 VNone in
     let* b := Slackython webhook2 VNone in
     ret (a, b)) w = (Ok (VRef a, VRef b), w2) /\
    getattr (VRef a) "slack_supervisors" w2 = (Ok (VRef supervisors), w2) /\
    list_append (VRef supervisors) (VStr id) w2 = (Ok tt, w3) /\
    delivers (send_error (VRef a) (VStr message) (opt_str title) VNone)
      w3 webhook1 (payload_json message CRITICAL title [id]) /\
    delivers (send_error (VRef b) (VStr message) (opt_str title) VNone)
      w3 webhook2 (payload_json message CRITICAL title []).
Proof.
  destruct w as [h s lg net].
  set (hA := h ++ notifier_cells (length h) webhook1 VNone).
  set (hB := hA ++ notifier_cells (length hA) webhook2 VNone).
  set (hA' := <[(length h + 1)%nat := OList ([] ++ [VStr id])]> hA).
  assert (length hA = (length h + 5)%nat) as HlenA
    by (subst hA; by rewrite length_app).
  assert (length hA' = length hA) as Hlen' by apply length_insert.
  assert (is_notifier hA (length h) webhook1 (VRef (length h + 1))) as HnA
    by apply Slackython_notifier.
  assert (hA !! (length h + 1)%nat = Some (OList [])) as Hsup
    by (subst hA; by rewrite lookup_new).
  exists (length h), (length hA), (length h + 1)%nat,
         (World hB s lg net),
         (World (hA' ++ notifier_cells (length hA) webhook2 VNone) s lg net).
  split; [|split; [|split; [|split]]].
  - rewrite (bind_ok _ _ _ _ _ (Slackython_ok h s lg net webhook1 VNone)).
    by rewrite (bind_ok _ _ _ _ _ (Slackython_ok hA s lg net webhook2 VNone)).
  - destruct (is_notifier_grow hA (notifier_cells (length hA) webhook2 VNone)
                _ _ _ HnA).
    by apply getattr_ok with attrs.
  - subst hB. rewrite (list_append_ok _ _ _ _ _ _ _ (lookup_old _ _ _ _ Hsup)).
    by rewrite insert_app_l by lia.
  - apply (send_error_delivers _ s lg net (length h) webhook1
             (VRef (length h + 1))).
    + apply is_notifier_grow. subst hA' hA. apply notifier_after_append.
    + exists (length h + 1)%nat. split; [done|]. apply lookup_old.
      subst hA'. by rewrite list_lookup_insert_eq by lia.
  - pose proof (Slackython_notifier hA' webhook2 VNone) as HnB.
    rewrite Hlen' in HnB.
    apply (send_error_delivers _ s lg net (length hA) webhook2 _ HnB).
    exists (length hA + 1)%nat. split; [done|].
    rewrite <- Hlen' at 1. by rewrite lookup_new.
Qed.

(** ** The budget counts requests, not repetitions *)

(** X13.  The argument [retries] is the number of requests, not of
    repetitions after a first one.  With a budget of zero or less the
    transport does nothing at all and returns [None], whatever the
    instance and the data are; with a budget of one it makes a single
    request and never repeats it, also when that request fails. *)
Theorem X13_budget_counts_requests w self data :
  (forall retries, (retries <= 0)%Z ->
     _send_to_webhook self data (Some retries) w = (Ok VNone, w)) /\
  (forall l attrs url body,
     self = VRef l ->
     w_heap w !! l = Some (OInst attrs) ->
     dict_get "webhook_url" attrs = Some url ->
     (json_dumps data w).1 = Ok body ->
     let req := Request url body json_headers in
     exists r,
       _send_to_webhook self data (Some 1%Z) w
       = (r, World (w_heap w) (w_sent w ++ [req])
                   (w_log w ++ records (outcome w req 0)) (w_net w))).
Proof.
  split.
  - intros retries Hle. rewrite send_to_webhook_run.
    replace (Z.to_nat (default 3 (Some retries))) with 0%nat by (simpl; lia).
    by destruct w.
  - intros l attrs url body -> Hself Hurl Hbody req.
    destruct w as [h s lg net]; simpl in Hself, Hbody.
    rewrite send_to_webhook_run.
    change (Z.to_nat (default 3 (Some 1))) with 1%nat.
    cbn [attempts]. unfold bind.
    rewrite (attempt_logs h net l attrs url data body Hself Hurl Hbody).
    destruct (verdict _) as [[|]| |]; by eexists.
Qed.

Lemma X13_budget_counts_requests_witness :
  let w := example_world [Fails Timeout; Responds 200] in
  let req := Request example_url (JObj [("attachments", JArr [])])
               json_headers in
  exists r,
    _send_to_webhook (VRef 1) (VRef 4) (Some 1%Z) w
    = (r, World (w_heap w) (w_sent w ++ [req])
                (w_log w ++ [LogError "Request timeout."]) (w_net w)).
Proof.
  intros w req.
  exact (proj2 (X13_budget_counts_requests w (VRef 1) (VRef 4)) 1%nat _
           example_url (JObj [("attachments", JArr [])])
           eq_refl eq_refl eq_refl eq_refl).
Defined.
